(** * The message router of the Pac-Man multi-agent controller

    A shallow embedding of [src/pacman/controller.py] (class [Controller])
    and the properties of its dispatch and session bookkeeping.

    The controller owns five dictionaries indexed by agent identifier and a
    channel handle.  Handlers mutate the dictionaries, call methods of two
    collaborators (the per-agent [GameState] and the agent's decision logic)
    and send one reply on the channel.  A failed dictionary lookup raises
    [KeyError], which nothing in the controller catches.

    The embedding is a state, error and trace monad: the state is the
    controller object, the error is the Python exception, and the trace lists
    what the handler did to the outside world, in order. *)

From stdpp Require Import gmap strings list fin_maps.

#[local] Open Scope Z_scope.

(** ** Opaque payloads

    The controller never inspects positions, rewards, policies or the agent
    classes it instantiates; they are parameters of the development. *)
Class Payload := {
  Position : Type;
  Reward : Type;
  Policy : Type;
  AgentClass : Type
}.

(** Actions and team labels are Python strings (['Stop'], ['pacman']). *)
Abbreviation Action := string.
Abbreviation Team := string.

(** ** Collaborator objects *)

(** Modelled from the spec: the class [GameState] of module [state], which is
    imported by the controller but is not part of the sources.  The fields are
    the keyword arguments of the constructor call in
    [__start_game_for_agent__] together with the food layout and the two maps
    "agent identifier to last-known position" and "agent identifier to
    fragility flag" of the data model. *)
Record GameState `{Payload} := mkGameState {
  width : Z;
  height : Z;
  walls : list Position;
  food : list Position;
  gs_agent_id : Z;
  ally_ids : list Z;
  enemy_ids : list Z;
  eater : bool;
  iteration : Z;
  positions : gmap Z Position;
  fragile : gmap Z bool
}.

(** Modelled from the spec: a fresh Session State has observed nobody. *)
Definition GameState_init `{Payload} (width height : Z) (walls : list Position)
    (agent_id : Z) (ally_ids enemy_ids : list Z) (eater : bool)
    (iteration : Z) : GameState :=
  {| width := width; height := height; walls := walls; food := [];
     gs_agent_id := agent_id; ally_ids := ally_ids; enemy_ids := enemy_ids;
     eater := eater; iteration := iteration;
     positions := ∅; fragile := ∅ |}.

(** Modelled from the spec: an instance of one of the agent classes of module
    [agents], which is not part of the sources.  It is built from
    [(agent_id, ally_ids, enemy_ids)], carries a behavior counter that can be
    read and reset and a policy that can be read and overwritten. *)
Record Agent `{Payload} := mkAgent {
  cls : AgentClass;
  a_agent_id : Z;
  a_ally_ids : list Z;
  a_enemy_ids : list Z;
  behavior_count : Z;
  policy : Policy
}.

(** The methods of the collaborators whose effect the controller does not
    fix: the decision routine, which may update the agent and the game state
    it is handed, the belief update of [predict_agent], and the policy a
    freshly constructed agent starts with. *)
Class Collaborators `{Payload} := {
  choose_action :
    Agent → GameState → Action → Reward → list Action → bool →
    Action * Agent * GameState;
  predict_agent : Z → Action → GameState → GameState;
  initial_policy : AgentClass → Policy
}.

(** Modelled from the spec: constructing an agent, [cls(agent_id, ally_ids,
    enemy_ids)]; the behavior counter of a new instance is 0. *)
Definition new_agent `{Collaborators} (c : AgentClass) (agent_id : Z)
    (ally_ids enemy_ids : list Z) : Agent :=
  {| cls := c; a_agent_id := agent_id; a_ally_ids := ally_ids;
     a_enemy_ids := enemy_ids; behavior_count := 0;
     policy := initial_policy c |}.

(** Modelled from the spec: [reset_behavior_count()] drains the counter. *)
Definition reset_behavior_count `{Payload} (a : Agent) : Agent :=
  {| cls := cls a; a_agent_id := a_agent_id a; a_ally_ids := a_ally_ids a;
     a_enemy_ids := a_enemy_ids a; behavior_count := 0; policy := policy a |}.

(** Modelled from the spec: [get_policy()] and [set_policy(policy)] of the
    agent classes read and overwrite the policy value. *)
Definition get_policy `{Payload} (a : Agent) : Policy := policy a.

Definition set_policy `{Payload} (p : Policy) (a : Agent) : Agent :=
  {| cls := cls a; a_agent_id := a_agent_id a; a_ally_ids := a_ally_ids a;
     a_enemy_ids := a_enemy_ids a; behavior_count := behavior_count a;
     policy := p |}.

(** Modelled from the spec: the observation methods of [GameState] overwrite
    one entry, the layout setters replace the snapshot wholesale. *)
Definition observe_agent `{Payload} (id_ : Z) (pos : Position)
    (g : GameState) : GameState :=
  {| width := width g; height := height g; walls := walls g; food := food g;
     gs_agent_id := gs_agent_id g; ally_ids := ally_ids g;
     enemy_ids := enemy_ids g; eater := eater g; iteration := iteration g;
     positions := <[id_ := pos]> (positions g); fragile := fragile g |}.

Definition observe_fragile_agent `{Payload} (id_ : Z) (status : bool)
    (g : GameState) : GameState :=
  {| width := width g; height := height g; walls := walls g; food := food g;
     gs_agent_id := gs_agent_id g; ally_ids := ally_ids g;
     enemy_ids := enemy_ids g; eater := eater g; iteration := iteration g;
     positions := positions g; fragile := <[id_ := status]> (fragile g) |}.

Definition set_walls `{Payload} (ws : list Position) (g : GameState)
    : GameState :=
  {| width := width g; height := height g; walls := ws; food := food g;
     gs_agent_id := gs_agent_id g; ally_ids := ally_ids g;
     enemy_ids := enemy_ids g; eater := eater g; iteration := iteration g;
     positions := positions g; fragile := fragile g |}.

Definition set_food_positions `{Payload} (fs : list Position) (g : GameState)
    : GameState :=
  {| width := width g; height := height g; walls := walls g; food := fs;
     gs_agent_id := gs_agent_id g; ally_ids := ally_ids g;
     enemy_ids := enemy_ids g; eater := eater g; iteration := iteration g;
     positions := positions g; fragile := fragile g |}.

(** ** Messages

    The classes and type tags of module [communication] that the controller
    names.  A [PolicyMessage] is both the reply to a policy request and the
    request that sets a policy. *)
Inductive msg_type :=
  | STATE_MSG
  | REQUEST_INIT_MSG
  | REQUEST_GAME_START_MSG
  | REQUEST_REGISTER_MSG
  | REQUEST_BEHAVIOR_COUNT_MSG
  | REQUEST_POLICY_MSG
  | POLICY_MSG
  | ACK_MSG
  | ACTION_MSG
  | BEHAVIOR_COUNT_MSG.

#[global] Instance msg_type_eq_dec : EqDecision msg_type.
Proof. solve_decision. Defined.

(** The attributes of a state message that [__send_agent_action__] and
    [__choose_action__] read. *)
Record StateData `{Payload} := mkStateData {
  agent_id : Z;
  wall_positions : list Position;
  food_positions : list Position;
  agent_positions : gmap Z Position;
  fragile_agents : gmap Z bool;
  executed_action : Action;
  reward : Reward;
  legal_actions : list Action;
  test_mode : bool
}.

Inductive message `{Payload} :=
  | StateMessage (state : StateData)
  | RequestInitializationMessage (agent_id : Z)
  | RequestGameStartMessage (agent_id : Z) (map_width map_height : Z)
  | RequestRegisterMessage (agent_id : Z) (agent_team : Team)
      (agent_class : AgentClass)
  | RequestBehaviorCountMessage (agent_id : Z)
  | RequestPolicyMessage (agent_id : Z)
  | PolicyMessage (agent_id : Z) (policy : Policy)
  | AckMessage
  | ActionMessage (agent_id : Z) (action : Action)
  | BehaviorCountMessage (count : Z).

Definition type `{Payload} (msg : message) : msg_type :=
  match msg with
  | StateMessage _ => STATE_MSG
  | RequestInitializationMessage _ => REQUEST_INIT_MSG
  | RequestGameStartMessage _ _ _ => REQUEST_GAME_START_MSG
  | RequestRegisterMessage _ _ _ => REQUEST_REGISTER_MSG
  | RequestBehaviorCountMessage _ => REQUEST_BEHAVIOR_COUNT_MSG
  | RequestPolicyMessage _ => REQUEST_POLICY_MSG
  | PolicyMessage _ _ => POLICY_MSG
  | AckMessage => ACK_MSG
  | ActionMessage _ _ => ACTION_MSG
  | BehaviorCountMessage _ => BEHAVIOR_COUNT_MSG
  end.

(** The kinds [__process__] has a branch for. *)
Definition dispatch_table : list msg_type :=
  [STATE_MSG; REQUEST_INIT_MSG; REQUEST_GAME_START_MSG; REQUEST_REGISTER_MSG;
   REQUEST_BEHAVIOR_COUNT_MSG; REQUEST_POLICY_MSG; POLICY_MSG].

(** ** The controller object *)

(** The attributes of [Controller].  [last_action] is not set by the
    constructor: [run] sets it to ['Stop'].  The channel handle [server] is
    represented by the trace of the monad below. *)
Record Controller `{Payload} := mkController {
  agents : gmap Z Agent;
  agent_classes : gmap Z AgentClass;
  agent_teams : gmap Z Team;
  game_states : gmap Z GameState;
  game_number : gmap Z Z;
  last_action : option Action
}.

(** ** Exceptions, trace and monad *)

Inductive exn :=
  | KeyError (key : Z)
  | ValueError (reason : string).

Inductive outcome (A : Type) :=
  | Return (a : A)
  | Raise (e : exn).
Arguments Return {A} a.
Arguments Raise {A} e.

(** What [log] prints. *)
Inductive log_entry `{Payload} :=
  | LogReady
  | LogNowRunning
  | LogRegistered (team : Team) (agent_id : Z) (c : AgentClass)
  | LogInitialized (team : Team) (agent_id : Z)
  | LogStartGame (team : Team) (agent_id : Z).

(** A method call on a game state. *)
Inductive gs_call `{Payload} :=
  | ObserveAgent (id_ : Z) (pos : Position)
  | ObserveFragileAgent (id_ : Z) (status : bool)
  | PredictAgent (id_ : Z) (action : Action)
  | SetWalls (ws : list Position)
  | SetFoodPositions (fs : list Position).

(** The trace: a message handed to [server.send], with the controller as it
    is at that moment; a line printed by [log]; a method called on the game
    state stored under [owner]. *)
Inductive event `{Payload} :=
  | Sent (reply : message) (snapshot : Controller)
  | Logged (entry : log_entry)
  | Called (owner : Z) (c : gs_call).

Definition M `{Payload} (A : Type) : Type :=
  Controller → outcome A * Controller * list event.

#[global] Instance M_ret `{Payload} : MRet M :=
  λ A a st, (Return a, st, []).

#[global] Instance M_bind `{Payload} : MBind M :=
  λ A B f m st,
    match m st with
    | (Return a, st1, t1) =>
        match f a st1 with
        | (o, st2, t2) => (o, st2, t1 ++ t2)
        end
    | (Raise e, st1, t1) => (Raise e, st1, t1)
    end.

Definition gets `{Payload} {A} (f : Controller → A) : M A :=
  λ st, (Return (f st), st, []).

Definition modify `{Payload} (f : Controller → Controller) : M unit :=
  λ st, (Return tt, f st, []).

Definition emit `{Payload} (ev : event) : M unit :=
  λ st, (Return tt, st, [ev]).

(** [d[key]]: a missing key raises [KeyError]. *)
Definition getitem `{Payload} {V} (d : Controller → gmap Z V) (key : Z) : M V :=
  λ st,
    match d st !! key with
    | Some v => (Return v, st, [])
    | None => (Raise (KeyError key), st, [])
    end.

(** [self.server.send(reply)] *)
Definition send `{Payload} (reply : message) : M unit :=
  λ st, (Return tt, st, [Sent reply st]).

(** [log(msg)] *)
Definition log `{Payload} (entry : log_entry) : M unit :=
  emit (Logged entry).

(** Assignments to the attributes of the controller. *)
Definition set_agents `{Payload} (f : gmap Z Agent → gmap Z Agent)
    (st : Controller) : Controller :=
  {| agents := f (agents st); agent_classes := agent_classes st;
     agent_teams := agent_teams st; game_states := game_states st;
     game_number := game_number st; last_action := last_action st |}.

Definition set_agent_classes `{Payload}
    (f : gmap Z AgentClass → gmap Z AgentClass) (st : Controller)
    : Controller :=
  {| agents := agents st; agent_classes := f (agent_classes st);
     agent_teams := agent_teams st; game_states := game_states st;
     game_number := game_number st; last_action := last_action st |}.

Definition set_agent_teams `{Payload} (f : gmap Z Team → gmap Z Team)
    (st : Controller) : Controller :=
  {| agents := agents st; agent_classes := agent_classes st;
     agent_teams := f (agent_teams st); game_states := game_states st;
     game_number := game_number st; last_action := last_action st |}.

Definition set_game_states `{Payload}
    (f : gmap Z GameState → gmap Z GameState) (st : Controller)
    : Controller :=
  {| agents := agents st; agent_classes := agent_classes st;
     agent_teams := agent_teams st; game_states := f (game_states st);
     game_number := game_number st; last_action := last_action st |}.

Definition set_game_number `{Payload} (f : gmap Z Z → gmap Z Z)
    (st : Controller) : Controller :=
  {| agents := agents st; agent_classes := agent_classes st;
     agent_teams := agent_teams st; game_states := game_states st;
     game_number := f (game_number st); last_action := last_action st |}.

Definition set_last_action `{Payload} (a : Action) (st : Controller)
    : Controller :=
  {| agents := agents st; agent_classes := agent_classes st;
     agent_teams := agent_teams st; game_states := game_states st;
     game_number := game_number st; last_action := Some a |}.

(** The keys of a dictionary.  Python leaves the order in which a [dict]
    iterates unspecified; the model enumerates in the order of the map, which
    need not be the order of the interpreter.  The statements below are about
    membership and multiplicity in the lists and groups of calls that come
    from an iteration, never about the order inside them. *)
Definition keys {V} (d : gmap Z V) : list Z := (map_to_list d).*1.

(** [for x in l: body(x)] *)
Fixpoint for_ `{Payload} {A} (l : list A) (body : A → M unit) : M unit :=
  match l with
  | [] => mret tt
  | x :: l' => body x ;; for_ l' body
  end.

(** [[x for x in l if cond(x)]] *)
Fixpoint comprehension `{Payload} {A} (l : list A) (cond : A → M bool)
    : M (list A) :=
  match l with
  | [] => mret []
  | x :: l' =>
      b ← cond x;
      rest ← comprehension l' cond;
      mret (if b : bool then x :: rest else rest)
  end.

(** A method call [self.game_states[owner].method(...)]: the object stored
    under [owner] is updated in place and the call is recorded. *)
Definition apply_call `{Collaborators} (c : gs_call) (g : GameState)
    : GameState :=
  match c with
  | ObserveAgent id_ pos => observe_agent id_ pos g
  | ObserveFragileAgent id_ status => observe_fragile_agent id_ status g
  | PredictAgent id_ action => predict_agent id_ action g
  | SetWalls ws => set_walls ws g
  | SetFoodPositions fs => set_food_positions fs g
  end.

Definition call `{Collaborators} (owner : Z) (c : gs_call) : M unit :=
  g ← getitem game_states owner;
  modify (set_game_states <[owner := apply_call c g]>) ;;
  emit (Called owner c).

(** ** The controller *)

(** [Controller.__init__]: the argument says whether [server] is a
    [ZMQMessengerBase]. *)
Definition __init__ `{Payload} (server_is_messenger : bool)
    : outcome Controller * list event :=
  if server_is_messenger then
    (Return {| agents := ∅; agent_classes := ∅; agent_teams := ∅;
               game_states := ∅; game_number := ∅; last_action := None |},
     [Logged LogReady])
  else (Raise (ValueError "Invalid server"), []).

Definition __get_allies__ `{Payload} (agent_id : Z) : M (list Z) :=
  teams ← gets agent_teams;
  comprehension (keys teams) (λ id_,
    t ← getitem agent_teams id_;
    t' ← getitem agent_teams agent_id;
    mret (bool_decide (t = t') && bool_decide (id_ ≠ agent_id))).

Definition __get_enemies__ `{Payload} (agent_id : Z) : M (list Z) :=
  teams ← gets agent_teams;
  comprehension (keys teams) (λ id_,
    t ← getitem agent_teams id_;
    t' ← getitem agent_teams agent_id;
    mret (bool_decide (t ≠ t') && bool_decide (id_ ≠ agent_id))).

Definition __initialize_agent__ `{Collaborators} (agent_id : Z) : M unit :=
  ally_ids ← __get_allies__ agent_id;
  enemy_ids ← __get_enemies__ agent_id;
  present ← gets (λ st, bool_decide (is_Some (agents st !! agent_id)));
  (if present : bool then
     _ ← getitem agents agent_id; modify (set_agents (delete agent_id))
   else mret tt) ;;
  modify (set_game_number <[agent_id := 0]>) ;;
  c ← getitem agent_classes agent_id;
  modify (set_agents <[agent_id := new_agent c agent_id ally_ids enemy_ids]>) ;;
  team ← getitem agent_teams agent_id;
  log (LogInitialized team agent_id) ;;
  send AckMessage.

Definition __register_agent__ `{Payload} (agent_id : Z) (agent_team : Team)
    (agent_class : AgentClass) : M unit :=
  modify (set_agent_classes <[agent_id := agent_class]>) ;;
  modify (set_agent_teams <[agent_id := agent_team]>) ;;
  log (LogRegistered agent_team agent_id agent_class) ;;
  send AckMessage.

Definition __request_behavior_count__ `{Payload} (agent_id : Z) : M unit :=
  a ← getitem agents agent_id;
  let count := behavior_count a in
  send (BehaviorCountMessage count) ;;
  a' ← getitem agents agent_id;
  modify (set_agents <[agent_id := reset_behavior_count a']>).

Definition __choose_action__ `{Collaborators} (state : StateData) : M Action :=
  for_ (map_to_list (agent_positions state)) (λ '(id_, pos),
    call (agent_id state) (ObserveAgent id_ pos)) ;;
  for_ (map_to_list (fragile_agents state)) (λ '(id_, status),
    call (agent_id state) (ObserveFragileAgent id_ status)) ;;
  agent_state ← getitem game_states (agent_id state);
  a ← getitem agents (agent_id state);
  let '(agent_action, a', agent_state') :=
    choose_action a agent_state (executed_action state) (reward state)
      (legal_actions state) (test_mode state) in
  modify (set_agents <[agent_id state := a']>) ;;
  modify (set_game_states <[agent_id state := agent_state']>) ;;
  ids ← gets (λ st, keys (game_states st));
  for_ ids (λ id_, call (agent_id state) (PredictAgent id_ agent_action)) ;;
  mret agent_action.

Definition __send_agent_action__ `{Collaborators} (msg : StateData)
    : M Action :=
  call (agent_id msg) (SetWalls (wall_positions msg)) ;;
  call (agent_id msg) (SetFoodPositions (food_positions msg)) ;;
  agent_action ← __choose_action__ msg;
  send (ActionMessage (agent_id msg) agent_action) ;;
  mret agent_action.

Definition __send_policy_request__ `{Payload} (agent_id : Z) : M unit :=
  a ← getitem agents agent_id;
  send (PolicyMessage agent_id (get_policy a)).

Definition __set_agent_policy__ `{Payload} (agent_id : Z) (p : Policy)
    : M unit :=
  a ← getitem agents agent_id;
  modify (set_agents <[agent_id := set_policy p a]>) ;;
  send AckMessage.

Definition __start_game_for_agent__ `{Payload} (agent_id : Z)
    (map_width map_height : Z) : M unit :=
  ally_ids ← __get_allies__ agent_id;
  enemy_ids ← __get_enemies__ agent_id;
  team ← getitem agent_teams agent_id;
  let eater := bool_decide (team = "pacman") in
  present ← gets (λ st, bool_decide (is_Some (game_states st !! agent_id)));
  (if present : bool then
     _ ← getitem game_states agent_id;
     modify (set_game_states (delete agent_id))
   else mret tt) ;;
  iteration ← getitem game_number agent_id;
  modify (set_game_states
            <[agent_id := GameState_init map_width map_height [] agent_id
                            ally_ids enemy_ids eater iteration]>) ;;
  send AckMessage ;;
  team' ← getitem agent_teams agent_id;
  log (LogStartGame team' agent_id).

Definition __process__ `{Collaborators} (msg : message) : M unit :=
  match msg with
  | StateMessage state =>
      a ← __send_agent_action__ state;
      modify (set_last_action a)
  | RequestInitializationMessage agent_id =>
      __initialize_agent__ agent_id
  | RequestGameStartMessage agent_id map_width map_height =>
      __start_game_for_agent__ agent_id map_width map_height ;;
      n ← getitem game_number agent_id;
      modify (set_game_number <[agent_id := n + 1]>)
  | RequestRegisterMessage agent_id agent_team agent_class =>
      __register_agent__ agent_id agent_team agent_class
  | RequestBehaviorCountMessage agent_id =>
      __request_behavior_count__ agent_id
  | RequestPolicyMessage agent_id =>
      __send_policy_request__ agent_id
  | PolicyMessage agent_id p =>
      __set_agent_policy__ agent_id p
  | AckMessage | ActionMessage _ _ | BehaviorCountMessage _ =>
      mret tt
  end.

(** The loop of [run] on the messages the channel delivers, in order.  An
    exception raised by [__process__] leaves the loop. *)
Fixpoint serve `{Collaborators} (inbox : list message) : M unit :=
  match inbox with
  | [] => mret tt
  | msg :: inbox' => __process__ msg ;; serve inbox'
  end.

Definition run `{Collaborators} (inbox : list message) : M unit :=
  log LogNowRunning ;;
  modify (set_last_action "Stop") ;;
  serve inbox.

(** ** Pure readings of the registry queries

    Allies are the registered agents that share the agent's team, the agent
    itself excluded; enemies are the registered agents of another team. *)
Definition allies_of (teams : gmap Z Team) (agent_id : Z) : list Z :=
  filter (λ id_, teams !! id_ = teams !! agent_id ∧ id_ ≠ agent_id)
    (keys teams).

Definition enemies_of (teams : gmap Z Team) (agent_id : Z) : list Z :=
  filter (λ id_, teams !! id_ ≠ teams !! agent_id ∧ id_ ≠ agent_id)
    (keys teams).

(** The replies in a trace, each with the controller as it was when the
    reply left. *)
Definition sent `{Payload} (t : list event) : list (message * Controller) :=
  omap (λ ev, match ev with
              | Sent reply snapshot => Some (reply, snapshot)
              | _ => None
              end) t.

(** The calls of [predict_agent] in a trace: owner, predicted agent, action. *)
Definition predicted `{Payload} (t : list event) : list (Z * Z * Action) :=
  omap (λ ev, match ev with
              | Called owner (PredictAgent id_ action) =>
                  Some (owner, id_, action)
              | _ => None
              end) t.

(** The calls of [observe_agent] in a trace: owner and observed agent. *)
Definition observed `{Payload} (t : list event) : list (Z * Z) :=
  omap (λ ev, match ev with
              | Called owner (ObserveAgent id_ _) => Some (owner, id_)
              | _ => None
              end) t.

(** ** What the handlers compute *)

(** The game state of the acting agent once the layout of a state message
    has been stored and its observations replayed, which is the state the
    decision routine is handed. *)
Definition observations `{Collaborators} (s : StateData) (g : GameState)
    : GameState :=
  foldl (λ g (x : Z * bool), apply_call (ObserveFragileAgent x.1 x.2) g)
    (foldl (λ g (x : Z * Position), apply_call (ObserveAgent x.1 x.2) g) g
       (map_to_list (agent_positions s)))
    (map_to_list (fragile_agents s)).

Definition session_before_decision `{Collaborators} (s : StateData)
    (g : GameState) : GameState :=
  observations s
    (apply_call (SetFoodPositions (food_positions s))
       (apply_call (SetWalls (wall_positions s)) g)).

(** The belief update that follows the decision: one [predict_agent] per
    identifier in [ids]. *)
Definition predictions `{Collaborators} (ids : list Z) (action : Action)
    (g : GameState) : GameState :=
  foldl (λ g id_, apply_call (PredictAgent id_ action) g) g ids.

(** The decision routine applied to a state message. *)
Definition decision `{Collaborators} (s : StateData) (a : Agent)
    (g : GameState) : Action * Agent * GameState :=
  choose_action a (session_before_decision s g) (executed_action s)
    (reward s) (legal_actions s) (test_mode s).

(** The lookups a handler needs to succeed. *)
Definition ready `{Payload} (st : Controller) (msg : message) : Prop :=
  match msg with
  | StateMessage s =>
      is_Some (game_states st !! agent_id s)
      ∧ is_Some (agents st !! agent_id s)
  | RequestInitializationMessage id =>
      is_Some (agent_classes st !! id) ∧ is_Some (agent_teams st !! id)
  | RequestGameStartMessage id _ _ =>
      is_Some (agent_teams st !! id) ∧ is_Some (game_number st !! id)
  | RequestBehaviorCountMessage id
  | RequestPolicyMessage id
  | PolicyMessage id _ => is_Some (agents st !! id)
  | _ => True
  end.

#[global] Instance ready_dec `{Payload} st msg : Decision (ready st msg).
Proof. destruct msg; cbn; apply _. Defined.

(** The controller after a message whose lookups succeed: the closed form of
    [__process__], established by [process_ready] below. *)
Definition after `{Collaborators} (st : Controller) (msg : message)
    : Controller :=
  match msg with
  | StateMessage s =>
      match game_states st !! agent_id s, agents st !! agent_id s with
      | Some g, Some a =>
          let '(action, a', g') := decision s a g in
          let ids := keys (<[agent_id s := g']> (game_states st)) in
          set_last_action action
            (set_game_states <[agent_id s := predictions ids action g']>
               (set_agents <[agent_id s := a']> st))
      | _, _ => st
      end
  | RequestInitializationMessage id =>
      match agent_classes st !! id with
      | Some c =>
          set_agents
            <[id := new_agent c id (allies_of (agent_teams st) id)
                      (enemies_of (agent_teams st) id)]>
            (set_game_number <[id := 0]> st)
      | None => st
      end
  | RequestGameStartMessage id w h =>
      match agent_teams st !! id, game_number st !! id with
      | Some team, Some n =>
          set_game_number <[id := n + 1]>
            (set_game_states
               <[id := GameState_init w h [] id
                         (allies_of (agent_teams st) id)
                         (enemies_of (agent_teams st) id)
                         (bool_decide (team = "pacman")) n]> st)
      | _, _ => st
      end
  | RequestRegisterMessage id team c =>
      set_agent_teams <[id := team]> (set_agent_classes <[id := c]> st)
  | RequestBehaviorCountMessage id =>
      match agents st !! id with
      | Some a => set_agents <[id := reset_behavior_count a]> st
      | None => st
      end
  | PolicyMessage id p =>
      match agents st !! id with
      | Some a => set_agents <[id := set_policy p a]> st
      | None => st
      end
  | _ => st
  end.

(** Trace entries other than replies. *)
Definition silent `{Payload} (ev : event) : Prop :=
  match ev with Sent _ _ => False | _ => True end.

(** ** Runs of the controller *)

(** The controller [__init__] builds. *)
Definition initial `{Payload} : Controller :=
  {| agents := ∅; agent_classes := ∅; agent_teams := ∅; game_states := ∅;
     game_number := ∅; last_action := None |}.

(** The controller when [run] enters its loop. *)
Definition running `{Payload} : Controller := set_last_action "Stop" initial.

(** The controllers a run can be in between two messages. *)
Definition reachable `{Collaborators} (st : Controller) : Prop :=
  ∃ inbox t, run inbox initial = (Return tt, st, t).

(** What holds of the dictionaries between two messages: an agent instance
    has a class, the agents with an instance are those with an episode
    counter, classes and teams are registered together, and a game state
    belongs to an agent that has an instance. *)
Definition wf `{Payload} (st : Controller) : Prop :=
  (∀ id, is_Some (agents st !! id) → is_Some (agent_classes st !! id))
  ∧ (∀ id, is_Some (game_number st !! id) ↔ is_Some (agents st !! id))
  ∧ (∀ id, is_Some (agent_classes st !! id) ↔ is_Some (agent_teams st !! id))
  ∧ (∀ id, is_Some (game_states st !! id) → is_Some (agents st !! id)).

Definition is_init_for `{Payload} (id : Z) (msg : message) : bool :=
  match msg with
  | RequestInitializationMessage id' => bool_decide (id' = id)
  | _ => false
  end.

Definition is_game_start_for `{Payload} (id : Z) (msg : message) : bool :=
  match msg with
  | RequestGameStartMessage id' _ _ => bool_decide (id' = id)
  | _ => false
  end.

(** The number of game starts for [id] in a sequence of messages. *)
Definition game_starts `{Payload} (id : Z) (inbox : list message) : nat :=
  length (filter (λ msg, is_game_start_for id msg = true) inbox).

(** The iteration the game state of [id] carries right after each game start
    for [id], along a run of the loop. *)
Fixpoint iterations_seeded `{Collaborators} (id : Z) (inbox : list message)
    (st : Controller) : list Z :=
  match inbox with
  | [] => []
  | msg :: inbox' =>
      match __process__ msg st with
      | (Return _, st', _) =>
          (if is_game_start_for id msg then
             match game_states st' !! id with
             | Some g => [iteration g]
             | None => []
             end
           else [])
          ++ iterations_seeded id inbox' st'
      | _ => []
      end
  end.

(** ** The statements that the code does not satisfy as they are worded *)

(** The episode counter seeds 0, 1, 2, ... whatever initializations come in
    between. *)
Definition counter_survives_initialization `{Collaborators} : Prop :=
  ∀ id inbox st t,
    serve inbox running = (Return tt, st, t) →
    iterations_seeded id inbox running
    = seqZ 0 (Z.of_nat (game_starts id inbox)).

(** Whoever the acting agent observes is predicted after the decision. *)
Definition predicts_every_observed `{Collaborators} : Prop :=
  ∀ s st st' t id_,
    __process__ (StateMessage s) st = (Return tt, st', t) →
    (agent_id s, id_) ∈ observed t →
    ∃ action, (agent_id s, id_, action) ∈ predicted t.

(** Every message of a dispatched kind gets exactly one reply, sent when the
    controller is in the state the handler leaves it in. *)
Definition one_reply_after_all_mutations `{Collaborators}
    (st : Controller) (msg : message) : Prop :=
  type msg ∈ dispatch_table →
  ∃ o st' t reply,
    __process__ msg st = (o, st', t) ∧ sent t = [(reply, st')].

(** A state message without game state fails alone: the loop serves the
    messages that follow from the controller as it was. *)
Definition lookup_failure_is_confined `{Collaborators}
    (st : Controller) (s : StateData) (inbox : list message) : Prop :=
  game_states st !! agent_id s = None →
  ∃ e t0,
    __process__ (StateMessage s) st = (Raise e, st, t0)
    ∧ serve (StateMessage s :: inbox) st
      = (let '(o, st', t) := serve inbox st in (o, st', t0 ++ t)).

(** ** A concrete game

    Positions on a grid, integer rewards, policies as lists of weights and
    classes named by strings; an agent that always walks north and counts its
    decisions, and a belief update that leaves the game state as it is. *)
Definition grid : Payload :=
  {| Position := Z * Z; Reward := Z; Policy := list Z; AgentClass := string |}.

Definition walk_north (a : @Agent grid) (g : @GameState grid)
    (executed : Action) (r : Z) (legal : list Action) (test : bool)
    : Action * @Agent grid * @GameState grid :=
  ("North",
   @mkAgent grid (cls a) (a_agent_id a) (a_ally_ids a) (a_enemy_ids a)
     (behavior_count a + 1) (policy a),
   g).

Definition walker : @Collaborators grid :=
  {| choose_action := walk_north;
     predict_agent := λ _ _ g, g;
     initial_policy := λ _, [] |}.

(** Agent 1 plays Pac-Man, agent 2 is a ghost that is never started. *)
Definition opening : list (@message grid) :=
  [@RequestRegisterMessage grid 1 "pacman" "PacmanAgent";
   @RequestRegisterMessage grid 2 "ghost" "GhostAgent";
   @RequestInitializationMessage grid 1;
   @RequestInitializationMessage grid 2;
   @RequestGameStartMessage grid 1 10 10].

(** Agent 1 sees the ghost at (3, 4), and the ghost is fragile. *)
Definition sighting : @StateData grid :=
  @mkStateData grid 1 [(0, 0)] [(5, 5)] {[2 := (3, 4)]} {[2 := true]}
    "Stop" 0 ["North"; "Stop"] false.

(** The controller after the opening, and after the sighting. *)
Definition opened : @Controller grid :=
  (@run grid walker opening (@initial grid)).1.2.

Definition sighted : @Controller grid :=
  (@run grid walker (opening ++ [@StateMessage grid sighting])
     (@initial grid)).1.2.

(** The controller after the opening and the game start of the ghost: both
    agents have a game state. *)
Definition both_started : @Controller grid :=
  (@serve grid walker [@RequestGameStartMessage grid 2 10 10] opened).1.2.

(** The instance of agent 1 after the opening and after the sighting, and
    its game state after the opening. *)
Definition pacman_opened : @Agent grid :=
  @new_agent grid walker "PacmanAgent" 1 [] [2].

Definition pacman_sighted : @Agent grid :=
  @mkAgent grid "PacmanAgent" 1 [] [2] 1 [].

Definition session_opened : @GameState grid :=
  @GameState_init grid 10 10 [] 1 [] [2] true 0.

(** The registry holds both agents, none is initialized. *)
Definition registered : @Controller grid :=
  (@serve grid walker
     [@RequestRegisterMessage grid 1 "pacman" "PacmanAgent";
      @RequestRegisterMessage grid 2 "ghost" "GhostAgent"]
     (@running grid)).1.2.

(** Two games of agent 1, between them the start of the ghost and a turn. *)
Definition two_games : list (@message grid) :=
  [@RequestInitializationMessage grid 2;
   @RequestGameStartMessage grid 1 10 10;
   @StateMessage grid sighting;
   @RequestGameStartMessage grid 1 10 10].

(** The opening, then agent 1 is initialized and started again. *)
Definition restart : list (@message grid) :=
  opening ++ [@RequestInitializationMessage grid 1;
              @RequestGameStartMessage grid 1 10 10].

(** ** Further readings of messages, replies and runs *)

(** The agent a request is about. *)
Definition addressee `{Payload} (msg : message) : option Z :=
  match msg with
  | StateMessage s => Some (agent_id s)
  | RequestInitializationMessage id
  | RequestGameStartMessage id _ _
  | RequestRegisterMessage id _ _
  | RequestBehaviorCountMessage id
  | RequestPolicyMessage id
  | PolicyMessage id _ => Some id
  | AckMessage | ActionMessage _ _ | BehaviorCountMessage _ => None
  end.

(** Two controllers hold the same entries for every agent but [id]. *)
Definition same_elsewhere `{Payload} (id : Z) (st st' : Controller) : Prop :=
  ∀ j, j ≠ id →
    agents st' !! j = agents st !! j
    ∧ agent_classes st' !! j = agent_classes st !! j
    ∧ agent_teams st' !! j = agent_teams st !! j
    ∧ game_states st' !! j = game_states st !! j
    ∧ game_number st' !! j = game_number st !! j.

(** The kind of reply each handler builds. *)
Definition reply_type (k : msg_type) : option msg_type :=
  match k with
  | STATE_MSG => Some ACTION_MSG
  | REQUEST_BEHAVIOR_COUNT_MSG => Some BEHAVIOR_COUNT_MSG
  | REQUEST_POLICY_MSG => Some POLICY_MSG
  | REQUEST_INIT_MSG | REQUEST_GAME_START_MSG | REQUEST_REGISTER_MSG
  | POLICY_MSG => Some ACK_MSG
  | ACK_MSG | ACTION_MSG | BEHAVIOR_COUNT_MSG => None
  end.

(** The reply a handler builds when its lookups succeed. *)
Definition reply_of `{Collaborators} (st : Controller) (msg : message)
    : option message :=
  match msg with
  | StateMessage s =>
      match game_states st !! agent_id s, agents st !! agent_id s with
      | Some g, Some a =>
          Some (ActionMessage (agent_id s) (decision s a g).1.1)
      | _, _ => None
      end
  | RequestInitializationMessage _
  | RequestGameStartMessage _ _ _
  | RequestRegisterMessage _ _ _
  | PolicyMessage _ _ => Some AckMessage
  | RequestBehaviorCountMessage id =>
      a ← agents st !! id; Some (BehaviorCountMessage (behavior_count a))
  | RequestPolicyMessage id =>
      a ← agents st !! id; Some (PolicyMessage id (get_policy a))
  | AckMessage | ActionMessage _ _ | BehaviorCountMessage _ => None
  end.

(** The actions sent in the replies of a trace. *)
Definition actions_sent `{Payload} (t : list event) : list Action :=
  omap (λ ev, match ev with
              | Sent (ActionMessage _ action) _ => Some action
              | _ => None
              end) t.

(** A third agent, and the sequence "initialize agent 1, register agent 3
    on the team of agent 1, start agent 1". *)
Definition late_ally : list (@message grid) :=
  [@RequestInitializationMessage grid 1;
   @RequestRegisterMessage grid 3 "pacman" "PacmanAgent";
   @RequestGameStartMessage grid 1 10 10].

(** A turn of agent 1, the policy of agent 2 is set and read back, and the
    behavior counter of agent 1 is read. *)
Definition exchange : list (@message grid) :=
  [@StateMessage grid sighting;
   @PolicyMessage grid 2 [7; 8];
   @RequestPolicyMessage grid 2;
   @AckMessage grid;
   @RequestBehaviorCountMessage grid 1].

(** The controller after the opening and the late ally: agents 1 and 3 play
    Pac-Man, agent 2 is a ghost. *)
Definition crowd : @Controller grid :=
  (@serve grid walker late_ally opened).1.2.

(** The entries of another agent in a controller written with the setters
    at key [id]. *)
Ltac elsewhere_solve :=
  cbn [fst snd agents agent_classes agent_teams game_states game_number
       set_agents set_agent_classes set_agent_teams set_game_states
       set_game_number set_last_action];
  rewrite ?lookup_insert_ne, ?lookup_delete_ne by done; done.

(** The invariant on a controller written with the setters: membership in
    an updated dictionary is membership in the old one, or the updated key
    [k].  The facts about one key are closed under the four clauses of the
    invariant, then each side is read off. *)
Ltac wf_saturate Hag Hnum Hreg Hgs :=
  repeat match goal with
    | Hx : is_Some (game_states ?st !! ?j) |- _ =>
        lazymatch goal with
        | _ : is_Some (agents st !! j) |- _ => fail
        | _ => pose proof (Hgs j Hx)
        end
    | Hx : is_Some (game_number ?st !! ?j) |- _ =>
        lazymatch goal with
        | _ : is_Some (agents st !! j) |- _ => fail
        | _ => pose proof (proj1 (Hnum j) Hx)
        end
    | Hx : is_Some (agents ?st !! ?j) |- _ =>
        lazymatch goal with
        | _ : is_Some (game_number st !! j) |- _ => fail
        | _ => pose proof (proj2 (Hnum j) Hx)
        end
    | Hx : is_Some (agents ?st !! ?j) |- _ =>
        lazymatch goal with
        | _ : is_Some (agent_classes st !! j) |- _ => fail
        | _ => pose proof (Hag j Hx)
        end
    | Hx : is_Some (agent_classes ?st !! ?j) |- _ =>
        lazymatch goal with
        | _ : is_Some (agent_teams st !! j) |- _ => fail
        | _ => pose proof (proj1 (Hreg j) Hx)
        end
    | Hx : is_Some (agent_teams ?st !! ?j) |- _ =>
        lazymatch goal with
        | _ : is_Some (agent_classes st !! j) |- _ => fail
        | _ => pose proof (proj2 (Hreg j) Hx)
        end
    end.

Ltac wf_solve k Hag Hnum Hreg Hgs :=
  unfold wf;
  cbn [agents agent_classes agent_teams game_states game_number
       set_agents set_agent_classes set_agent_teams set_game_states
       set_game_number set_last_action];
  split_and!; intros j; rewrite ?lookup_insert_is_Some;
  destruct (decide (k = j)) as [<-|?];
  (lazymatch goal with |- _ ↔ _ => split | _ => idtac end);
  intros; destruct_or?; destruct_and?; try done;
  wf_saturate Hag Hnum Hreg Hgs;
  first [assumption | by left | right; split; [done|assumption]].

(** * Properties *)

Section Basics.
Context `{Collaborators}.

Lemma elem_of_keys {V} (d : gmap Z V) (k : Z) :
  k ∈ keys d ↔ is_Some (d !! k).
Proof.
  unfold keys. rewrite list_elem_of_fmap. split.
  - intros [[k' v] [-> Hin]]. apply elem_of_map_to_list in Hin. by exists v.
  - intros [v Hv]. exists (k, v). split; [done|].
    by apply elem_of_map_to_list.
Qed.

Lemma NoDup_keys {V} (d : gmap Z V) : NoDup (keys d).
Proof. apply NoDup_fst_map_to_list. Qed.

Lemma keys_nil {V} (d : gmap Z V) : keys d = [] ↔ d = ∅.
Proof.
  unfold keys. rewrite <- map_to_list_empty_iff. split.
  - apply fmap_nil_inv.
  - by intros ->.
Qed.

Lemma bind_return {A B} (m : M A) (f : A → M B) st a st1 t1 :
  m st = (Return a, st1, t1) →
  (m ≫= f) st = (let '(o, st2, t2) := f a st1 in (o, st2, t1 ++ t2)).
Proof. intros Hm. unfold mbind, M_bind. rewrite Hm. by destruct (f a st1) as [[? ?] ?]. Qed.

Lemma bind_raise {A B} (m : M A) (f : A → M B) st e st1 t1 :
  m st = (Raise e, st1, t1) → (m ≫= f) st = (Raise e, st1, t1).
Proof. intros Hm. unfold mbind, M_bind. by rewrite Hm. Qed.

(** A comprehension whose condition reads the state without touching it is
    a filter. *)
Lemma comprehension_filter {A} (P : A → Prop) `{!∀ x, Decision (P x)}
    (l : list A) (cond : A → M bool) st :
  (∀ x, x ∈ l → cond x st = (Return (bool_decide (P x)), st, [])) →
  comprehension l cond st = (Return (filter P l), st, []).
Proof.
  induction l as [|x l IH]; intros Hc; [done|].
  cbn [comprehension].
  rewrite (bind_return _ _ _ _ _ _ (Hc x ltac:(left))).
  rewrite (bind_return _ _ _ _ _ _
             (IH (λ y Hy, Hc y ltac:(by right)))).
  rewrite filter_cons.
  destruct (decide (P x)) as [Hp|Hp].
  - by rewrite bool_decide_true.
  - by rewrite bool_decide_false.
Qed.

(** A comprehension whose condition raises on the first element raises. *)
Lemma comprehension_raise {A} (x : A) (l : list A) (cond : A → M bool)
    st e :
  cond x st = (Raise e, st, []) →
  comprehension (x :: l) cond st = (Raise e, st, []).
Proof. intros Hc. cbn [comprehension]. by rewrite (bind_raise _ _ _ _ _ _ Hc). Qed.

Lemma get_allies_registered agent_id st t :
  agent_teams st !! agent_id = Some t →
  __get_allies__ agent_id st
  = (Return (allies_of (agent_teams st) agent_id), st, []).
Proof.
  intros Ht. unfold __get_allies__, allies_of.
  rewrite (bind_return _ _ st (agent_teams st) st []); [|done].
  rewrite (comprehension_filter
             (λ id_, agent_teams st !! id_ = agent_teams st !! agent_id
                     ∧ id_ ≠ agent_id)); [done|].
  intros id_ [t0 Hid]%elem_of_keys.
  unfold mbind, M_bind, getitem, mret, M_ret. rewrite Hid, Ht. cbn.
  do 2 f_equal. f_equal. rewrite bool_decide_and. f_equal.
  apply bool_decide_ext. naive_solver.
Qed.

Lemma get_enemies_registered agent_id st t :
  agent_teams st !! agent_id = Some t →
  __get_enemies__ agent_id st
  = (Return (enemies_of (agent_teams st) agent_id), st, []).
Proof.
  intros Ht. unfold __get_enemies__, enemies_of.
  rewrite (bind_return _ _ st (agent_teams st) st []); [|done].
  rewrite (comprehension_filter
             (λ id_, agent_teams st !! id_ ≠ agent_teams st !! agent_id
                     ∧ id_ ≠ agent_id)); [done|].
  intros id_ [t0 Hid]%elem_of_keys.
  unfold mbind, M_bind, getitem, mret, M_ret. rewrite Hid, Ht. cbn.
  do 2 f_equal. f_equal. rewrite bool_decide_and. f_equal.
  apply bool_decide_ext. naive_solver.
Qed.

(** For an agent that is not registered the queries raise as soon as the
    comprehension has an element to test; on an empty registry they return
    the empty list. *)
Lemma get_allies_unregistered agent_id st :
  agent_teams st !! agent_id = None →
  __get_allies__ agent_id st
  = (if bool_decide (agent_teams st = ∅) then Return []
     else Raise (KeyError agent_id), st, []).
Proof.
  intros Ht. unfold __get_allies__.
  rewrite (bind_return _ _ st (agent_teams st) st []); [|done].
  cbn. destruct (keys (agent_teams st)) as [|id_ l] eqn:Hk.
  - apply keys_nil in Hk. by rewrite bool_decide_true.
  - rewrite bool_decide_false.
    2:{ intros He%keys_nil. by rewrite He in Hk. }
    assert (is_Some (agent_teams st !! id_)) as [t0 Hid].
    { apply elem_of_keys. rewrite Hk. by left. }
    erewrite comprehension_raise; [done|].
    unfold mbind, M_bind, getitem. by rewrite Hid, Ht.
Qed.

Lemma get_enemies_unregistered agent_id st :
  agent_teams st !! agent_id = None →
  __get_enemies__ agent_id st
  = (if bool_decide (agent_teams st = ∅) then Return []
     else Raise (KeyError agent_id), st, []).
Proof.
  intros Ht. unfold __get_enemies__.
  rewrite (bind_return _ _ st (agent_teams st) st []); [|done].
  cbn. destruct (keys (agent_teams st)) as [|id_ l] eqn:Hk.
  - apply keys_nil in Hk. by rewrite bool_decide_true.
  - rewrite bool_decide_false.
    2:{ intros He%keys_nil. by rewrite He in Hk. }
    assert (is_Some (agent_teams st !! id_)) as [t0 Hid].
    { apply elem_of_keys. rewrite Hk. by left. }
    erewrite comprehension_raise; [done|].
    unfold mbind, M_bind, getitem. by rewrite Hid, Ht.
Qed.

End Basics.

Section Handlers.
Context `{Collaborators}.

Lemma set_game_states_insert_insert k (g1 g2 : GameState) st :
  set_game_states <[k := g2]> (set_game_states <[k := g1]> st)
  = set_game_states <[k := g2]> st.
Proof.
  unfold set_game_states. cbn. by rewrite insert_insert_eq.
Qed.

Lemma set_game_states_insert_id k (g : GameState) st :
  game_states st !! k = Some g → set_game_states <[k := g]> st = st.
Proof.
  intros Hk. destruct st. unfold set_game_states. cbn in *.
  by rewrite insert_id.
Qed.

Lemma call_run owner c st g :
  game_states st !! owner = Some g →
  call owner c st
  = (Return tt, set_game_states <[owner := apply_call c g]> st,
     [Called owner c]).
Proof.
  intros Hg. unfold call, mbind, M_bind, getitem, modify, emit.
  by rewrite Hg.
Qed.

Lemma call_raise owner c st :
  game_states st !! owner = None →
  call owner c st = (Raise (KeyError owner), st, []).
Proof.
  intros Hg. unfold call, mbind, M_bind, getitem. by rewrite Hg.
Qed.

(** A loop of method calls on one game state. *)
Lemma for_calls {A} (l : list A) (body : A → M unit) (c : A → gs_call)
    owner st g :
  (∀ x st, body x st = call owner (c x) st) →
  game_states st !! owner = Some g →
  for_ l body st
  = (Return tt,
     set_game_states <[owner := foldl (λ g x, apply_call (c x) g) g l]> st,
     (λ x, Called owner (c x)) <$> l).
Proof.
  intros Hbody. revert st g.
  induction l as [|x l IH]; intros st g Hg.
  - cbn. by rewrite set_game_states_insert_id.
  - cbn [for_]. unfold mbind, M_bind.
    rewrite Hbody, (call_run _ _ _ _ Hg).
    rewrite (IH _ (apply_call (c x) g)).
    + by rewrite set_game_states_insert_insert.
    + cbn. apply lookup_insert_eq.
Qed.

Lemma register_run id team c st :
  __register_agent__ id team c st
  = (let st' := set_agent_teams <[id := team]>
                  (set_agent_classes <[id := c]> st) in
     (Return tt, st', [Logged (LogRegistered team id c);
                       Sent AckMessage st'])).
Proof. done. Qed.

Lemma initialize_run id st c team :
  agent_classes st !! id = Some c →
  agent_teams st !! id = Some team →
  __initialize_agent__ id st
  = (let st' :=
       set_agents
         <[id := new_agent c id (allies_of (agent_teams st) id)
                   (enemies_of (agent_teams st) id)]>
         (set_game_number <[id := 0]> st) in
     (Return tt, st', [Logged (LogInitialized team id);
                       Sent AckMessage st'])).
Proof.
  intros Hc Ht. unfold __initialize_agent__.
  rewrite (bind_return _ _ _ _ _ _ (get_allies_registered _ _ _ Ht)).
  rewrite (bind_return _ _ _ _ _ _ (get_enemies_registered _ _ _ Ht)).
  unfold mbind, M_bind, gets, getitem, modify, log, emit, send, mret, M_ret.
  unfold set_agents, set_game_number.
  cbn. destruct (agents st !! id) as [a|] eqn:Ha.
  - rewrite bool_decide_true by done. cbn. rewrite Ha. cbn. rewrite Hc. cbn.
    rewrite Ht. cbn. by rewrite insert_delete_eq.
  - rewrite bool_decide_false by (by intros [? ?]). cbn. rewrite Hc. cbn.
    by rewrite Ht.
Qed.

Lemma start_game_run id w h st team n :
  agent_teams st !! id = Some team →
  game_number st !! id = Some n →
  __start_game_for_agent__ id w h st
  = (let st' :=
       set_game_states
         <[id := GameState_init w h [] id (allies_of (agent_teams st) id)
                   (enemies_of (agent_teams st) id)
                   (bool_decide (team = "pacman")) n]> st in
     (Return tt, st', [Sent AckMessage st'; Logged (LogStartGame team id)])).
Proof.
  intros Ht Hn. unfold __start_game_for_agent__.
  rewrite (bind_return _ _ _ _ _ _ (get_allies_registered _ _ _ Ht)).
  rewrite (bind_return _ _ _ _ _ _ (get_enemies_registered _ _ _ Ht)).
  unfold mbind, M_bind, gets, getitem, modify, log, emit, send, mret, M_ret.
  unfold set_game_states.
  cbn. rewrite Ht. cbn.
  destruct (game_states st !! id) as [g|] eqn:Hg.
  - rewrite bool_decide_true by done. cbn. rewrite Hg. cbn. rewrite Hn. cbn.
    rewrite Ht. cbn. by rewrite insert_delete_eq.
  - rewrite bool_decide_false by (by intros [? ?]). cbn. rewrite Hn. cbn.
    by rewrite Ht.
Qed.

Lemma behavior_count_run id st a :
  agents st !! id = Some a →
  __request_behavior_count__ id st
  = (Return tt, set_agents <[id := reset_behavior_count a]> st,
     [Sent (BehaviorCountMessage (behavior_count a)) st]).
Proof.
  intros Ha.
  unfold __request_behavior_count__, mbind, M_bind, getitem, modify, send.
  rewrite Ha. cbn. by rewrite Ha.
Qed.

Lemma policy_request_run id st a :
  agents st !! id = Some a →
  __send_policy_request__ id st
  = (Return tt, st, [Sent (PolicyMessage id (get_policy a)) st]).
Proof.
  intros Ha. unfold __send_policy_request__, mbind, M_bind, getitem, send.
  by rewrite Ha.
Qed.

Lemma set_policy_run id p st a :
  agents st !! id = Some a →
  __set_agent_policy__ id p st
  = (let st' := set_agents <[id := set_policy p a]> st in
     (Return tt, st', [Sent AckMessage st'])).
Proof.
  intros Ha.
  unfold __set_agent_policy__, mbind, M_bind, getitem, modify, send.
  by rewrite Ha.
Qed.

Lemma set_states_agents_states k (g1 g2 : GameState) (a : Agent) st :
  set_game_states <[k := g2]>
    (set_agents <[k := a]> (set_game_states <[k := g1]> st))
  = set_game_states <[k := g2]> (set_agents <[k := a]> st).
Proof.
  unfold set_game_states, set_agents. cbn. by rewrite insert_insert_eq.
Qed.

Lemma choose_action_run s st g a action a' g' :
  game_states st !! agent_id s = Some g →
  agents st !! agent_id s = Some a →
  choose_action a (observations s g) (executed_action s) (reward s)
    (legal_actions s) (test_mode s) = (action, a', g') →
  __choose_action__ s st
  = (let ids := keys (<[agent_id s := g']> (game_states st)) in
     (Return action,
      set_game_states <[agent_id s := predictions ids action g']>
        (set_agents <[agent_id s := a']> st),
      ((λ x, Called (agent_id s) (ObserveAgent x.1 x.2))
         <$> map_to_list (agent_positions s))
      ++ ((λ x, Called (agent_id s) (ObserveFragileAgent x.1 x.2))
            <$> map_to_list (fragile_agents s))
      ++ ((λ id_, Called (agent_id s) (PredictAgent id_ action)) <$> ids))).
Proof.
  intros Hg Ha Hd. unfold __choose_action__.
  erewrite bind_return
    by (eapply for_calls with (c := λ x, ObserveAgent x.1 x.2);
        [by intros [??] ?|exact Hg]).
  cbv beta.
  erewrite bind_return
    by (eapply for_calls with (c := λ x, ObserveFragileAgent x.1 x.2);
        [by intros [??] ?|apply lookup_insert_eq]).
  cbv beta. rewrite set_game_states_insert_insert.
  fold (observations s g).
  set (st1 := set_game_states <[agent_id s := observations s g]> st).
  assert (game_states st1 !! agent_id s = Some (observations s g)) as Hg1
    by apply lookup_insert_eq.
  assert (agents st1 !! agent_id s = Some a) as Ha1 by done.
  unfold mbind at 1, M_bind at 1, getitem at 1. rewrite Hg1.
  unfold mbind at 1, M_bind at 1, getitem at 1. rewrite Ha1.
  rewrite Hd.
  unfold mbind at 1, M_bind at 1, modify at 1.
  unfold mbind at 1, M_bind at 1, modify at 1.
  unfold mbind at 1, M_bind at 1, gets at 1.
  set (st2 := set_game_states <[agent_id s := g']>
                (set_agents <[agent_id s := a']> st1)).
  assert (game_states st2 !! agent_id s = Some g') as Hg2
    by apply lookup_insert_eq.
  erewrite bind_return
    by (eapply for_calls with (c := λ id_, PredictAgent id_ action);
        [done|exact Hg2]).
  cbn. unfold predictions. rewrite insert_insert_eq. subst st2 st1.
  rewrite set_game_states_insert_insert, set_states_agents_states.
  by rewrite !app_nil_r.
Qed.

(** The state handler, from a controller that holds a game state and an
    agent for the sender. *)
Lemma send_agent_action_run s st g a action a' g' :
  game_states st !! agent_id s = Some g →
  agents st !! agent_id s = Some a →
  decision s a g = (action, a', g') →
  __send_agent_action__ s st
  = (let ids := keys (<[agent_id s := g']> (game_states st)) in
     let st' := set_game_states <[agent_id s := predictions ids action g']>
                  (set_agents <[agent_id s := a']> st) in
     (Return action, st',
      [Called (agent_id s) (SetWalls (wall_positions s));
       Called (agent_id s) (SetFoodPositions (food_positions s))]
      ++ ((λ x, Called (agent_id s) (ObserveAgent x.1 x.2))
            <$> map_to_list (agent_positions s))
      ++ ((λ x, Called (agent_id s) (ObserveFragileAgent x.1 x.2))
            <$> map_to_list (fragile_agents s))
      ++ ((λ id_, Called (agent_id s) (PredictAgent id_ action)) <$> ids)
      ++ [Sent (ActionMessage (agent_id s) action) st'])).
Proof.
  intros Hg Ha Hd. unfold __send_agent_action__.
  erewrite bind_return by (by apply call_run). cbv beta.
  erewrite bind_return by (apply call_run, lookup_insert_eq).
  cbv beta. rewrite set_game_states_insert_insert.
  set (g1 := apply_call (SetFoodPositions (food_positions s))
               (apply_call (SetWalls (wall_positions s)) g)).
  set (st1 := set_game_states <[agent_id s := g1]> st).
  erewrite bind_return
    by (apply (choose_action_run s st1 g1 a action a' g');
        [apply lookup_insert_eq|done|exact Hd]).
  cbn. subst st1. cbn.
  rewrite set_states_agents_states, insert_insert_eq.
  unfold mbind, M_bind, send, mret, M_ret. cbn.
  by rewrite <- !app_assoc.
Qed.

End Handlers.

Section Dispatch.
Context `{Collaborators}.

Lemma sent_app (t1 t2 : list event) : sent (t1 ++ t2) = sent t1 ++ sent t2.
Proof. apply omap_app. Qed.

Lemma sent_calls {A} (c : A → gs_call) owner (l : list A) :
  sent ((λ x, Called owner (c x)) <$> l) = [].
Proof. induction l; [done|]. by cbn. Qed.

Lemma choose_action_raise s st g :
  game_states st !! agent_id s = Some g →
  agents st !! agent_id s = None →
  __choose_action__ s st
  = (Raise (KeyError (agent_id s)),
     set_game_states <[agent_id s := observations s g]> st,
     ((λ x, Called (agent_id s) (ObserveAgent x.1 x.2))
        <$> map_to_list (agent_positions s))
     ++ ((λ x, Called (agent_id s) (ObserveFragileAgent x.1 x.2))
           <$> map_to_list (fragile_agents s))).
Proof.
  intros Hg Ha. unfold __choose_action__.
  erewrite bind_return
    by (eapply for_calls with (c := λ x, ObserveAgent x.1 x.2);
        [by intros [??] ?|exact Hg]).
  cbv beta.
  erewrite bind_return
    by (eapply for_calls with (c := λ x, ObserveFragileAgent x.1 x.2);
        [by intros [??] ?|apply lookup_insert_eq]).
  cbv beta. rewrite set_game_states_insert_insert.
  fold (observations s g).
  set (st1 := set_game_states <[agent_id s := observations s g]> st).
  assert (game_states st1 !! agent_id s = Some (observations s g)) as Hg1
    by apply lookup_insert_eq.
  assert (agents st1 !! agent_id s = None) as Ha1 by done.
  unfold mbind at 1, M_bind at 1, getitem at 1. rewrite Hg1.
  unfold mbind at 1, M_bind at 1, getitem at 1. rewrite Ha1.
  cbn. by rewrite !app_nil_r.
Qed.

(** A message whose lookups succeed is handled to the end. *)
Lemma process_ready msg st :
  ready st msg →
  ∃ t, __process__ msg st = (Return tt, after st msg, t).
Proof.
  destruct msg as [s|id|id w h|id team c|id|id|id p| | |]; cbn [ready after];
    try (intros _; by eexists).
  - intros [[g Hg] [a Ha]]. rewrite Hg, Ha.
    destruct (decision s a g) as [[action a'] g'] eqn:Hd.
    eexists. cbn [__process__].
    erewrite bind_return by (by eapply send_agent_action_run).
    done.
  - intros [[c Hc] [team Ht]]. rewrite Hc. eexists. cbn [__process__].
    by erewrite initialize_run.
  - intros [[team Ht] [n Hn]]. rewrite Ht, Hn. eexists. cbn [__process__].
    erewrite bind_return by (by eapply start_game_run).
    cbn. unfold mbind, M_bind, getitem, modify. cbn. by rewrite Hn.
  - intros [a Ha]. rewrite Ha. eexists. cbn [__process__].
    by erewrite behavior_count_run.
  - intros [a Ha]. eexists. cbn [__process__].
    by erewrite policy_request_run.
  - intros [a Ha]. rewrite Ha. eexists. cbn [__process__].
    by erewrite set_policy_run.
Qed.

Lemma sent_silent (t : list event) : Forall silent t → sent t = [].
Proof.
  induction 1 as [|ev t Hev _ IH]; [done|].
  destruct ev; cbn in *; [done|exact IH..].
Qed.

Lemma silent_calls {A} (c : A → gs_call) owner (l : list A) :
  Forall silent ((λ x, Called owner (c x)) <$> l).
Proof. apply Forall_fmap, Forall_forall. by intros. Qed.

(** A message with a failing lookup raises [KeyError], and no reply
    leaves. *)
Lemma process_not_ready msg st :
  ¬ ready st msg →
  ∃ key st' t,
    __process__ msg st = (Raise (KeyError key), st', t) ∧ sent t = [].
Proof.
  destruct msg as [s|id|id w h|id team c|id|id|id p| | |]; cbn [ready];
    try (intros Hn; by destruct Hn).
  - intros Hn. cbn [__process__].
    destruct (game_states st !! agent_id s) as [g|] eqn:Hg.
    + destruct (agents st !! agent_id s) as [a|] eqn:Ha.
      { destruct Hn. by split. }
      do 3 eexists. split.
      * apply bind_raise. unfold __send_agent_action__.
        erewrite bind_return by (by apply call_run). cbv beta.
        erewrite bind_return by (apply call_run, lookup_insert_eq).
        cbv beta. rewrite set_game_states_insert_insert.
        erewrite bind_raise;
          [|by apply choose_action_raise; [apply lookup_insert_eq|]].
        done.
      * apply sent_silent. repeat apply Forall_cons_2; try done.
        apply Forall_app_2; apply silent_calls.
    + exists (agent_id s), st, []. split; [|done].
      apply bind_raise. unfold __send_agent_action__.
      apply bind_raise. by apply call_raise.
  - intros Hn. cbn [__process__]. unfold __initialize_agent__.
    destruct (agent_teams st !! id) as [team|] eqn:Ht.
    + destruct (agent_classes st !! id) as [c|] eqn:Hc.
      { destruct Hn. by split. }
      erewrite bind_return by (by eapply get_allies_registered).
      erewrite bind_return by (by eapply get_enemies_registered).
      unfold mbind, M_bind, gets, getitem, modify, mret, M_ret.
      unfold set_agents, set_game_number. cbn.
      destruct (agents st !! id) as [a|] eqn:Ha.
      * rewrite bool_decide_true by done. cbn. rewrite Ha. cbn.
        rewrite Hc. by do 3 eexists.
      * rewrite bool_decide_false by (by intros [? ?]). cbn.
        rewrite Hc. by do 3 eexists.
    + unfold mbind at 1, M_bind at 1.
      rewrite get_allies_unregistered by done.
      destruct (bool_decide (agent_teams st = ∅)) eqn:He;
        [|by do 3 eexists].
      unfold mbind at 1, M_bind at 1.
      rewrite get_enemies_unregistered by done. rewrite He.
      unfold mbind, M_bind, gets, getitem, modify, mret, M_ret.
      unfold set_agents, set_game_number. cbn.
      destruct (agents st !! id) as [a|] eqn:Ha.
      * rewrite bool_decide_true by done. cbn. rewrite Ha. cbn.
        destruct (agent_classes st !! id); cbn; [rewrite Ht|];
          by do 3 eexists.
      * rewrite bool_decide_false by (by intros [? ?]). cbn.
        destruct (agent_classes st !! id); cbn; [rewrite Ht|];
          by do 3 eexists.
  - intros Hn. cbn [__process__].
    assert (∃ key st' t,
              __start_game_for_agent__ id w h st
              = (Raise (KeyError key), st', t) ∧ sent t = [])
      as (key & st' & t & Hr & Ht0).
    2:{ exists key, st', t. split; [|done]. by apply bind_raise. }
    unfold __start_game_for_agent__.
    destruct (agent_teams st !! id) as [team|] eqn:Ht.
    + destruct (game_number st !! id) as [n|] eqn:Hnum.
      { destruct Hn. by split. }
      erewrite bind_return by (by eapply get_allies_registered).
      erewrite bind_return by (by eapply get_enemies_registered).
      unfold mbind, M_bind, gets, getitem, modify, mret, M_ret.
      unfold set_game_states. cbn. rewrite Ht. cbn.
      destruct (game_states st !! id) as [g|] eqn:Hg.
      * rewrite bool_decide_true by done. cbn. rewrite Hg. cbn.
        rewrite Hnum. by do 3 eexists.
      * rewrite bool_decide_false by (by intros [? ?]). cbn.
        rewrite Hnum. by do 3 eexists.
    + unfold mbind at 1, M_bind at 1.
      rewrite get_allies_unregistered by done.
      destruct (bool_decide (agent_teams st = ∅)) eqn:He;
        [|by do 3 eexists].
      unfold mbind at 1, M_bind at 1.
      rewrite get_enemies_unregistered by done. rewrite He.
      unfold mbind, M_bind, getitem. cbn. rewrite Ht.
      by do 3 eexists.
  - intros Hn. cbn [__process__].
    destruct (agents st !! id) as [a|] eqn:Ha; [by destruct Hn|].
    exists id, st, []. split; [|done].
    unfold __request_behavior_count__. apply bind_raise.
    unfold getitem. by rewrite Ha.
  - intros Hn. cbn [__process__].
    destruct (agents st !! id) as [a|] eqn:Ha; [by destruct Hn|].
    exists id, st, []. split; [|done].
    unfold __send_policy_request__. apply bind_raise.
    unfold getitem. by rewrite Ha.
  - intros Hn. cbn [__process__].
    destruct (agents st !! id) as [a|] eqn:Ha; [by destruct Hn|].
    exists id, st, []. split; [|done].
    unfold __set_agent_policy__. apply bind_raise.
    unfold getitem. by rewrite Ha.
Qed.

(** Success and readiness coincide, and the result is [after]. *)
Lemma process_return msg st st' t :
  __process__ msg st = (Return tt, st', t) →
  ready st msg ∧ st' = after st msg.
Proof.
  intros Hp. destruct (decide (ready st msg)) as [Hr|Hr].
  - split; [done|]. destruct (process_ready _ _ Hr) as [t' Ht'].
    congruence.
  - destruct (process_not_ready _ _ Hr) as (key & st0 & t0 & Hf & _).
    congruence.
Qed.

End Dispatch.

Section Invariant.
Context `{Collaborators}.

Lemma bind_inv {A B} (m : M A) (f : A → M B) st b st' t :
  (m ≫= f) st = (Return b, st', t) →
  ∃ a st1 t1 t2,
    m st = (Return a, st1, t1) ∧ f a st1 = (Return b, st', t2)
    ∧ t = t1 ++ t2.
Proof.
  unfold mbind, M_bind. destruct (m st) as [[[a|e] st1] t1]; [|done].
  destruct (f a st1) as [[o st2] t2] eqn:Hf. intros [= -> -> <-].
  by exists a, st1, t1, t2.
Qed.

Lemma serve_cons_inv msg inbox st st' t :
  serve (msg :: inbox) st = (Return tt, st', t) →
  ∃ t1 t2,
    __process__ msg st = (Return tt, after st msg, t1)
    ∧ ready st msg
    ∧ serve inbox (after st msg) = (Return tt, st', t2)
    ∧ t = t1 ++ t2.
Proof.
  cbn [serve]. intros ([] & st1 & t1 & t2 & Hp & Hs & ->)%bind_inv.
  destruct (process_return _ _ _ _ Hp) as [Hr ->]. by exists t1, t2.
Qed.

Lemma serve_app inbox1 inbox2 st st1 t1 :
  serve inbox1 st = (Return tt, st1, t1) →
  serve (inbox1 ++ inbox2) st
  = (let '(o, st2, t2) := serve inbox2 st1 in (o, st2, t1 ++ t2)).
Proof.
  revert st t1. induction inbox1 as [|msg inbox1 IH]; intros st t1.
  - cbn. intros [= <- <-]. by destruct (serve inbox2 st) as [[? ?] ?].
  - intros (t & t' & Hp & _ & Hs & ->)%serve_cons_inv.
    cbn [app serve]. erewrite bind_return by exact Hp.
    rewrite (IH _ _ Hs). destruct (serve inbox2 st1) as [[? ?] ?].
    by rewrite app_assoc.
Qed.

(** The constructor accepts a messenger and nothing else. *)
Lemma init_messenger : __init__ true = (Return initial, [Logged LogReady]).
Proof. done. Qed.

Lemma init_invalid_server :
  __init__ false = (Raise (ValueError "Invalid server"), []).
Proof. done. Qed.

Lemma wf_initial : wf initial.
Proof.
  unfold wf, initial.
  cbn [agents agent_classes agent_teams game_states game_number].
  split_and!; intros j; rewrite !lookup_empty; try split; by intros [? ?].
Qed.

Lemma wf_running : wf running.
Proof. exact wf_initial. Qed.

Lemma wf_after st msg : wf st → ready st msg → wf (after st msg).
Proof.
  intros (Hag & Hnum & Hreg & Hgs).
  destruct msg as [s|id|id w h|id team c|id|id|id p| | |];
    cbn [ready after]; try done; intros Hr.
  - pose proof Hr as [[g Hg] [a Ha]]. rewrite Hg, Ha. clear Hg Ha.
    destruct Hr as [Hr1 Hr2].
    destruct (decision s a g) as [[action a'] g'].
    wf_solve (agent_id s) Hag Hnum Hreg Hgs.
  - pose proof Hr as [[c Hc] [team Ht]]. rewrite Hc. clear Hc Ht.
    destruct Hr as [Hr1 Hr2]. wf_solve id Hag Hnum Hreg Hgs.
  - pose proof Hr as [[team Ht] [n Hn]]. rewrite Ht, Hn. clear Ht Hn.
    destruct Hr as [Hr1 Hr2]. wf_solve id Hag Hnum Hreg Hgs.
  - wf_solve id Hag Hnum Hreg Hgs.
  - pose proof Hr as [a Ha]. rewrite Ha. clear Ha.
    wf_solve id Hag Hnum Hreg Hgs.
  - pose proof Hr as [a Ha]. rewrite Ha. clear Ha.
    wf_solve id Hag Hnum Hreg Hgs.
Qed.

Lemma wf_serve inbox st st' t :
  wf st → serve inbox st = (Return tt, st', t) → wf st'.
Proof.
  revert st t. induction inbox as [|msg inbox IH]; intros st t Hwf.
  - cbn. by intros [= <- _].
  - intros (t1 & t2 & _ & Hr & Hs & _)%serve_cons_inv.
    eapply IH; [|exact Hs]. by apply wf_after.
Qed.

Lemma run_serve inbox :
  run inbox initial
  = (let '(o, st, t) := serve inbox running in
     (o, st, Logged LogNowRunning :: t)).
Proof.
  unfold run, mbind, M_bind, log, emit, modify. fold running.
  by destruct (serve inbox running) as [[[[]|e] st] t].
Qed.

Lemma reachable_serve st :
  reachable st ↔ ∃ inbox t, serve inbox running = (Return tt, st, t).
Proof.
  unfold reachable. split; intros (inbox & t & Hr); exists inbox.
  - rewrite run_serve in Hr.
    destruct (serve inbox running) as [[o st1] t1]. exists t1. congruence.
  - eexists. rewrite run_serve, Hr. done.
Qed.

Lemma reachable_wf st : reachable st → wf st.
Proof.
  intros (inbox & t & Hs)%reachable_serve.
  eapply wf_serve; [apply wf_running|exact Hs].
Qed.

End Invariant.

(** ** Registration, initialization and the behavior counter *)

Section Registry.
Context `{Collaborators}.

(** C4: a message whose kind is not in the dispatch table reaches no handler:
    nothing is sent, logged or called, and the controller, with its registry,
    agent instances, game states and episode counters, is left as it was. *)
Theorem unrecognized_message_is_dropped msg st :
  type msg ∉ dispatch_table →
  __process__ msg st = (Return tt, st, []).
Proof.
  intros Hn. destruct msg; try done; exfalso; apply Hn;
    apply list_elem_of_In; cbn; tauto.
Qed.

(** C10: handling REGISTER for [id] writes the class and the team of [id]
    and nothing else: the agent instances, the game states and the episode
    counters of all agents, [id] included, are unchanged, and so are the
    registrations of the other agents. *)
Theorem register_touches_registration_only id team c st :
  ∃ st' t,
    __process__ (RequestRegisterMessage id team c) st = (Return tt, st', t)
    ∧ agents st' = agents st
    ∧ game_states st' = game_states st
    ∧ game_number st' = game_number st
    ∧ last_action st' = last_action st
    ∧ agent_classes st' = <[id := c]> (agent_classes st)
    ∧ agent_teams st' = <[id := team]> (agent_teams st)
    ∧ ∀ j, j ≠ id →
        agent_classes st' !! j = agent_classes st !! j
        ∧ agent_teams st' !! j = agent_teams st !! j.
Proof.
  do 2 eexists. split; [apply register_run|]. cbn.
  split_and!; try done. intros j Hj. by rewrite !lookup_insert_ne.
Qed.

(** C7: registering [id] again overwrites its team and class: after
    REGISTER(id, team1, cls1) and REGISTER(id, team2, cls2) the controller is
    the one that REGISTER(id, team2, cls2) alone produces, so the allies and
    enemies of every agent are computed with team2 and INIT constructs an
    instance of cls2. *)
Theorem reregistration_overwrites id team1 cls1 team2 cls2 st :
  let twice :=
    (serve [RequestRegisterMessage id team1 cls1;
            RequestRegisterMessage id team2 cls2] st).1.2 in
  let once := (serve [RequestRegisterMessage id team2 cls2] st).1.2 in
  let teams := <[id := team2]> (agent_teams st) in
  twice = once
  ∧ agent_teams twice = teams
  ∧ agent_classes twice = <[id := cls2]> (agent_classes st)
  ∧ (∀ j, is_Some (teams !! j) →
       __get_allies__ j twice = (Return (allies_of teams j), twice, [])
       ∧ __get_enemies__ j twice = (Return (enemies_of teams j), twice, []))
  ∧ ∃ st' t,
      __process__ (RequestInitializationMessage id) twice
      = (Return tt, st', t)
      ∧ agents st' !! id
        = Some (new_agent cls2 id (allies_of teams id) (enemies_of teams id)).
Proof.
  cbn zeta. cbn [serve __process__]. unfold mbind, M_bind, mret, M_ret.
  repeat (rewrite register_run; cbv beta iota zeta). cbn [fst snd].
  set (twice := set_agent_teams _ (set_agent_classes _ (set_agent_teams _ _))).
  assert (agent_teams twice = <[id := team2]> (agent_teams st)) as Ht.
  { subst twice. cbn. apply insert_insert_eq. }
  assert (agent_classes twice = <[id := cls2]> (agent_classes st)) as Hc.
  { subst twice. cbn. apply insert_insert_eq. }
  split_and!; try done.
  - subst twice. unfold set_agent_teams, set_agent_classes. cbn.
    by rewrite !insert_insert_eq.
  - intros j [t Hj]. rewrite <- Ht in *.
    by erewrite get_allies_registered, get_enemies_registered.
  - do 2 eexists. split.
    + cbn [__process__]. eapply initialize_run.
      * rewrite Hc. apply lookup_insert_eq.
      * rewrite Ht. apply lookup_insert_eq.
    + cbn. rewrite lookup_insert_eq. by rewrite <- Ht.
Qed.

(** C6: for a registered agent, INIT stores an instance built from the
    registered class and the allies and enemies computed at that moment,
    whatever instance was stored before; its behavior counter is 0, which is
    what a behavior-count request that follows replies. *)
Theorem initialization_replaces_instance id st c team :
  agent_classes st !! id = Some c →
  agent_teams st !! id = Some team →
  ∃ st' t,
    __process__ (RequestInitializationMessage id) st = (Return tt, st', t)
    ∧ agents st' !! id
      = Some (new_agent c id (allies_of (agent_teams st) id)
                (enemies_of (agent_teams st) id))
    ∧ behavior_count <$> agents st' !! id = Some 0
    ∧ ∃ st'',
        __process__ (RequestBehaviorCountMessage id) st'
        = (Return tt, st'', [Sent (BehaviorCountMessage 0) st']).
Proof.
  intros Hc Ht. do 2 eexists. split.
  { cbn [__process__]. by eapply initialize_run. }
  cbn zeta.
  set (st' := set_agents _ _).
  assert (agents st' !! id
          = Some (new_agent c id (allies_of (agent_teams st) id)
                    (enemies_of (agent_teams st) id))) as Ha
    by apply lookup_insert_eq.
  split_and!; [done|by rewrite Ha|].
  eexists. cbn [__process__]. by rewrite (behavior_count_run _ _ _ Ha).
Qed.

(** C9: for an agent with an instance whose behavior counter is [n], a
    behavior-count request replies [BehaviorCountMessage n], the value before
    the reset, and leaves the counter at 0, so that the same request right
    after replies 0. *)
Theorem behavior_count_is_drained id st a :
  agents st !! id = Some a →
  ∃ st1 st2,
    __process__ (RequestBehaviorCountMessage id) st
    = (Return tt, st1, [Sent (BehaviorCountMessage (behavior_count a)) st])
    ∧ behavior_count <$> agents st1 !! id = Some 0
    ∧ __process__ (RequestBehaviorCountMessage id) st1
      = (Return tt, st2, [Sent (BehaviorCountMessage 0) st1]).
Proof.
  intros Ha. do 2 eexists.
  assert (agents (set_agents <[id := reset_behavior_count a]> st) !! id
          = Some (reset_behavior_count a)) as Ha'
    by apply lookup_insert_eq.
  split_and!.
  - cbn [__process__]. by apply behavior_count_run.
  - by rewrite Ha'.
  - cbn [__process__]. by rewrite (behavior_count_run _ _ _ Ha').
Qed.

(** C8: in a controller that a run has reached, GAME_START for an agent with
    an instance succeeds and stores a game state built from the message, the
    registry and the episode counter alone: it is the same whatever game
    state was stored for the agent before, and it holds no position and no
    fragility flag. *)
Theorem game_start_discards_session id w h st a :
  reachable st →
  agents st !! id = Some a →
  ∃ st' t team n g,
    agent_teams st !! id = Some team
    ∧ game_number st !! id = Some n
    ∧ __process__ (RequestGameStartMessage id w h) st = (Return tt, st', t)
    ∧ game_states st' !! id = Some g
    ∧ g = GameState_init w h [] id (allies_of (agent_teams st) id)
            (enemies_of (agent_teams st) id)
            (bool_decide (team = "pacman")) n
    ∧ positions g = ∅
    ∧ fragile g = ∅
    ∧ ∀ old, ∃ st'' t'',
        __process__ (RequestGameStartMessage id w h)
          (set_game_states <[id := old]> st)
        = (Return tt, st'', t'')
        ∧ game_states st'' !! id = Some g.
Proof.
  intros (Hag & Hnum & Hreg & _)%reachable_wf Ha.
  assert (is_Some (agents st !! id)) as Hs by done.
  destruct (proj2 (Hnum id) Hs) as [n Hn].
  destruct (proj1 (Hreg id) (Hag id Hs)) as [team Ht].
  assert (ready st (RequestGameStartMessage id w h)) as Hr by (by split).
  destruct (process_ready _ _ Hr) as [t Hp].
  eexists _, t, team, n, _. split_and!; [done|done|exact Hp|..].
  - cbn [after]. rewrite Ht, Hn. cbn. apply lookup_insert_eq.
  - done.
  - done.
  - done.
  - intros old.
    assert (ready (set_game_states <[id := old]> st)
              (RequestGameStartMessage id w h)) as Hr' by exact Hr.
    destruct (process_ready _ _ Hr') as [t' Hp'].
    eexists _, t'. split; [exact Hp'|].
    cbn [after]. cbn. rewrite Ht, Hn. cbn. apply lookup_insert_eq.
Qed.

End Registry.

(** ** Replies, failures and the decision cycle *)

Section Session.
Context `{Collaborators}.

Lemma predicted_app (t1 t2 : list event) :
  predicted (t1 ++ t2) = predicted t1 ++ predicted t2.
Proof. apply omap_app. Qed.

Lemma predicted_predictions owner action (ids : list Z) :
  predicted ((λ id_, Called owner (PredictAgent id_ action)) <$> ids)
  = (λ id_, (owner, id_, action)) <$> ids.
Proof. induction ids as [|id_ ids IH]; [done|]. cbn. by f_equal. Qed.

Lemma predicted_observations owner (l : list (Z * Position)) :
  predicted ((λ x, Called owner (ObserveAgent x.1 x.2)) <$> l) = [].
Proof. induction l; [done|]. by cbn. Qed.

Lemma predicted_fragile owner (l : list (Z * bool)) :
  predicted ((λ x, Called owner (ObserveFragileAgent x.1 x.2)) <$> l) = [].
Proof. induction l; [done|]. by cbn. Qed.

(** The trace of a handled state message carries one reply, sent last. *)
Lemma sent_state_trace owner ws fs (obs : list (Z * Position))
    (frag : list (Z * bool)) (ids : list Z) action reply st' :
  sent ([Called owner (SetWalls ws); Called owner (SetFoodPositions fs)]
        ++ ((λ x, Called owner (ObserveAgent x.1 x.2)) <$> obs)
        ++ ((λ x, Called owner (ObserveFragileAgent x.1 x.2)) <$> frag)
        ++ ((λ id_, Called owner (PredictAgent id_ action)) <$> ids)
        ++ [Sent reply st'])
  = [(reply, st')].
Proof.
  rewrite !sent_app.
  rewrite (sent_calls (λ x, ObserveAgent x.1 x.2)),
    (sent_calls (λ x, ObserveFragileAgent x.1 x.2)),
    (sent_calls (λ id_, PredictAgent id_ action)).
  done.
Qed.

(** C3, as the code has it: a message of a dispatched kind whose lookups
    succeed gets exactly one reply.  For REGISTER, INIT, REQUEST_POLICY and
    POLICY the controller is in its final state when the reply leaves; after
    the reply, GAME_START increments the episode counter,
    REQUEST_BEHAVIOR_COUNT resets the behavior counter and STATE stores the
    chosen action as last action.  When a lookup fails the handler raises
    and no reply leaves. *)
Theorem one_reply_per_ready_message msg st :
  type msg ∈ dispatch_table →
  (ready st msg →
   ∃ t reply snapshot,
     __process__ msg st = (Return tt, after st msg, t)
     ∧ sent t = [(reply, snapshot)]
     ∧ match msg with
       | StateMessage s =>
           ∃ action,
             reply = ActionMessage (agent_id s) action
             ∧ after st msg = set_last_action action snapshot
       | RequestGameStartMessage id _ _ =>
           ∃ n,
             reply = AckMessage
             ∧ game_number snapshot !! id = Some n
             ∧ after st msg = set_game_number <[id := n + 1]> snapshot
       | RequestBehaviorCountMessage id =>
           ∃ a,
             reply = BehaviorCountMessage (behavior_count a)
             ∧ agents snapshot !! id = Some a
             ∧ after st msg
               = set_agents <[id := reset_behavior_count a]> snapshot
       | _ => after st msg = snapshot
       end)
  ∧ (¬ ready st msg →
     ∃ key st' t,
       __process__ msg st = (Raise (KeyError key), st', t) ∧ sent t = []).
Proof.
  intros Hk. split; [|apply process_not_ready].
  destruct msg as [s|id|id w h|id team c|id|id|id p| | |];
    cbn [ready after __process__].
  - intros [[g Hg] [a Ha]]. rewrite Hg, Ha.
    destruct (decision s a g) as [[action a'] g'] eqn:Hd.
    eexists _, _, _. split_and!.
    + erewrite bind_return by (by eapply send_agent_action_run). done.
    + cbn zeta. rewrite app_nil_r. apply sent_state_trace.
    + by exists action.
  - intros [[c Hc] [team Ht]]. rewrite Hc.
    eexists _, _, _. split_and!; [by erewrite initialize_run|done..].
  - intros [[team Ht] [n Hn]]. rewrite Ht, Hn.
    eexists _, _, _. split_and!.
    + erewrite bind_return by (by eapply start_game_run).
      cbn. unfold mbind, M_bind, getitem, modify. cbn. by rewrite Hn.
    + done.
    + by exists n.
  - intros _. eexists _, _, _. split_and!; [apply register_run|done..].
  - intros [a Ha]. rewrite Ha.
    eexists _, _, _. split_and!; [by erewrite behavior_count_run|done|].
    by exists a.
  - intros [a Ha].
    eexists _, _, _. split_and!; [by erewrite policy_request_run|done..].
  - intros [a Ha]. rewrite Ha.
    eexists _, _, _. split_and!; [by erewrite set_policy_run|done..].
  - exfalso. apply list_elem_of_In in Hk. cbn in Hk. intuition discriminate.
  - exfalso. apply list_elem_of_In in Hk. cbn in Hk. intuition discriminate.
  - exfalso. apply list_elem_of_In in Hk. cbn in Hk. intuition discriminate.
Qed.

(** C5, as the code has it: a state message for an agent without game state
    raises [KeyError] at the first lookup, before anything is changed, sent
    or called, so the state of every agent is what it was; nothing catches
    the exception, which leaves the loop of [run]: the messages that follow
    are not handled. *)
Theorem state_without_session_stops_the_loop s st inbox :
  game_states st !! agent_id s = None →
  __process__ (StateMessage s) st = (Raise (KeyError (agent_id s)), st, [])
  ∧ serve (StateMessage s :: inbox) st
    = (Raise (KeyError (agent_id s)), st, [])
  ∧ ∀ before t,
      serve before running = (Return tt, st, t) →
      run (before ++ StateMessage s :: inbox) initial
      = (Raise (KeyError (agent_id s)), st, Logged LogNowRunning :: t).
Proof.
  intros Hg.
  assert (__process__ (StateMessage s) st
          = (Raise (KeyError (agent_id s)), st, [])) as Hp.
  { cbn [__process__]. apply bind_raise. unfold __send_agent_action__.
    apply bind_raise. by apply call_raise. }
  assert (serve (StateMessage s :: inbox) st
          = (Raise (KeyError (agent_id s)), st, [])) as Hs.
  { cbn [serve]. by apply bind_raise. }
  split_and!; [done|done|].
  intros before t Hb. rewrite run_serve, (serve_app _ _ _ _ _ Hb), Hs.
  by rewrite app_nil_r.
Qed.

(** C2, as the code has it: handling a state message of an agent that has a
    game state and an instance calls [predict_agent(id, action)] on the game
    state of the acting agent, where [action] is the action that
    [choose_action] returns on the game state updated with the message and
    that the reply carries, once for every identifier that has a game state
    in the controller, the acting agent among them, and for no other
    identifier, whatever the positions in the message are. *)
Theorem prediction_covers_started_agents s st g a :
  game_states st !! agent_id s = Some g →
  agents st !! agent_id s = Some a →
  let action :=
    (choose_action a (session_before_decision s g) (executed_action s)
       (reward s) (legal_actions s) (test_mode s)).1.1 in
  ∃ st' t snapshot,
    __process__ (StateMessage s) st = (Return tt, st', t)
    ∧ sent t = [(ActionMessage (agent_id s) action, snapshot)]
    ∧ NoDup (predicted t)
    ∧ (∀ owner id_ act,
         (owner, id_, act) ∈ predicted t
         ↔ owner = agent_id s ∧ act = action
           ∧ is_Some (game_states st !! id_))
    ∧ (agent_id s, agent_id s, action) ∈ predicted t.
Proof.
  intros Hg Ha. cbn zeta. fold (decision s a g).
  destruct (decision s a g) as [[action a'] g'] eqn:Hd. cbn [fst].
  set (ids := keys (<[agent_id s := g']> (game_states st))).
  assert (∀ id_, id_ ∈ ids ↔ is_Some (game_states st !! id_)) as Hids.
  { intros id_. unfold ids. rewrite elem_of_keys, lookup_insert_is_Some.
    destruct (decide (agent_id s = id_)) as [<-|?].
    - split; [by exists g|by left].
    - split; [by intros [?|[_ ?]]|by right]. }
  eexists _, _, _. split.
  { cbn [__process__].
    erewrite bind_return by (by eapply send_agent_action_run). done. }
  cbn zeta. fold ids. rewrite app_nil_r.
  assert (∀ st',
    predicted
      ([Called (agent_id s) (SetWalls (wall_positions s));
        Called (agent_id s) (SetFoodPositions (food_positions s))]
       ++ ((λ x, Called (agent_id s) (ObserveAgent x.1 x.2))
             <$> map_to_list (agent_positions s))
       ++ ((λ x, Called (agent_id s) (ObserveFragileAgent x.1 x.2))
             <$> map_to_list (fragile_agents s))
       ++ ((λ id_, Called (agent_id s) (PredictAgent id_ action)) <$> ids)
       ++ [Sent (ActionMessage (agent_id s) action) st'])
    = (λ id_, (agent_id s, id_, action)) <$> ids) as Hpred.
  { intros st'. rewrite !predicted_app, predicted_observations,
      predicted_fragile, predicted_predictions. cbn. by rewrite app_nil_r. }
  rewrite Hpred. split_and!.
  - apply sent_state_trace.
  - apply NoDup_fmap_2; [|apply NoDup_keys]. by intros ?? [= ->].
  - intros owner id_ act. rewrite list_elem_of_fmap. split.
    + intros (j & [= -> -> ->] & Hj). by apply Hids in Hj.
    + intros (-> & -> & Hj). exists id_. by rewrite Hids.
  - apply list_elem_of_fmap. exists (agent_id s). split; [done|].
    apply Hids. by exists g.
Qed.

End Session.

(** ** The episode counter *)

Section Episodes.
Context `{Collaborators}.

(** One handled message, the counter of [id] and the iteration it seeds. *)
Lemma after_counter id n st msg :
  ready st msg →
  game_number st !! id = Some n →
  is_init_for id msg = false →
  game_number (after st msg) !! id
  = Some (if is_game_start_for id msg then n + 1 else n)
  ∧ (is_game_start_for id msg = true →
     iteration <$> game_states (after st msg) !! id = Some n).
Proof.
  intros Hr Hn Hi.
  destruct msg as [s|id'|id' w h|id' team c|id'|id'|id' p| | |];
    cbn [ready after is_init_for is_game_start_for] in *; try done.
  - destruct Hr as [[g ->] [a ->]].
    by destruct (decision s a g) as [[action a'] g'].
  - destruct Hr as [[c ->] _]. apply bool_decide_eq_false in Hi.
    cbn. by rewrite lookup_insert_ne.
  - destruct Hr as [[team ->] [n' Hn']]. rewrite Hn'.
    destruct (decide (id' = id)) as [->|Hne].
    + rewrite (bool_decide_true (id = id)) by done.
      assert (n' = n) as -> by congruence.
      cbn. by rewrite !lookup_insert_eq.
    + rewrite (bool_decide_false (id' = id)) by done.
      cbn. by rewrite lookup_insert_ne.
  - destruct Hr as [a ->]. done.
  - destruct Hr as [a ->]. done.
Qed.

Lemma after_teams id st msg :
  is_Some (agent_teams st !! id) →
  is_Some (agent_teams (after st msg) !! id).
Proof.
  intros Ht.
  destruct msg as [s|id'|id' w h|id' team c|id'|id'|id' p| | |];
    cbn [after]; try done.
  - destruct (game_states st !! agent_id s) as [g|]; [|done].
    destruct (agents st !! agent_id s) as [a|]; [|done].
    by destruct (decision s a g) as [[action a'] g'].
  - by destruct (agent_classes st !! id').
  - destruct (agent_teams st !! id'); [|done].
    by destruct (game_number st !! id').
  - cbn. rewrite lookup_insert_is_Some.
    destruct (decide (id' = id)); naive_solver.
  - by destruct (agents st !! id').
  - by destruct (agents st !! id').
Qed.

Lemma serve_teams id inbox st st' t :
  is_Some (agent_teams st !! id) →
  serve inbox st = (Return tt, st', t) →
  is_Some (agent_teams st' !! id).
Proof.
  revert st t. induction inbox as [|msg inbox IH]; intros st t Ht.
  - cbn. by intros [= <- _].
  - intros (t1 & t2 & _ & _ & Hs & _)%serve_cons_inv.
    eapply IH; [|exact Hs]. by apply after_teams.
Qed.

(** Along a run without initialization of [id], the game starts of [id] seed
    consecutive iterations from the value of its counter. *)
Lemma iterations_from_counter id inbox st st' t n :
  game_number st !! id = Some n →
  Forall (λ msg, is_init_for id msg = false) inbox →
  serve inbox st = (Return tt, st', t) →
  iterations_seeded id inbox st = seqZ n (Z.of_nat (game_starts id inbox))
  ∧ game_number st' !! id = Some (n + Z.of_nat (game_starts id inbox)).
Proof.
  revert st t n. induction inbox as [|msg inbox IH]; intros st t n Hn Hi.
  - cbn. intros [= <- _]. split; [done|]. by rewrite Z.add_0_r.
  - intros (t1 & t2 & Hp & Hr & Hs & _)%serve_cons_inv.
    apply Forall_cons in Hi as [Hi1 Hi2].
    destruct (after_counter id n st msg Hr Hn Hi1) as [Hn' Hit].
    cbn [iterations_seeded]. rewrite Hp. unfold game_starts.
    rewrite filter_cons.
    destruct (is_game_start_for id msg) eqn:Hg.
    + destruct (decide (true = true)) as [_|?]; [|done].
      destruct (IH _ _ _ Hn' Hi2 Hs) as [IH1 IH2].
      specialize (Hit eq_refl).
      destruct (game_states (after st msg) !! id) as [g|]; [|done].
      injection Hit as Hit. rewrite IH1, IH2. cbn [length].
      fold (game_starts id inbox). split.
      * rewrite (seqZ_cons n) by lia. cbn. rewrite Hit.
        do 2 f_equal; lia.
      * f_equal. lia.
    + destruct (decide (false = true)) as [?|_]; [done|].
      by destruct (IH _ _ _ Hn' Hi2 Hs) as [IH1 IH2].
Qed.

(** C1, as the code has it: every INIT for [id] that is handled sets the
    episode counter of [id] to 0; the game starts of [id] that follow, up to
    the next INIT for [id], seed the iterations 0, 1, 2, ... in order,
    whatever other messages are handled in between, and the next game start
    succeeds and seeds the number of game starts handled since the INIT. *)
Theorem episode_counter_counts_from_initialization id st st1 t1 inbox st2 t2
    w h :
  __process__ (RequestInitializationMessage id) st = (Return tt, st1, t1) →
  Forall (λ msg, is_init_for id msg = false) inbox →
  serve inbox st1 = (Return tt, st2, t2) →
  game_number st1 !! id = Some 0
  ∧ iterations_seeded id inbox st1
    = seqZ 0 (Z.of_nat (game_starts id inbox))
  ∧ game_number st2 !! id = Some (Z.of_nat (game_starts id inbox))
  ∧ ∃ st3 t3,
      __process__ (RequestGameStartMessage id w h) st2 = (Return tt, st3, t3)
      ∧ iteration <$> game_states st3 !! id
        = Some (Z.of_nat (game_starts id inbox))
      ∧ game_number st3 !! id
        = Some (Z.of_nat (game_starts id inbox) + 1).
Proof.
  intros Hp Hi Hs.
  destruct (process_return _ _ _ _ Hp) as [[[c Hc] Ht] ->].
  assert (game_number (after st (RequestInitializationMessage id)) !! id
          = Some 0) as Hn.
  { cbn [after]. rewrite Hc. cbn. apply lookup_insert_eq. }
  destruct (iterations_from_counter _ _ _ _ _ _ Hn Hi Hs) as [Hit Hn2].
  rewrite Z.add_0_l in Hn2.
  assert (is_Some (agent_teams st2 !! id)) as Ht2.
  { eapply serve_teams; [|exact Hs]. by apply after_teams. }
  assert (ready st2 (RequestGameStartMessage id w h)) as Hr by (by split).
  destruct (process_ready _ _ Hr) as [t3 Hp3].
  destruct (after_counter id _ st2 (RequestGameStartMessage id w h) Hr Hn2)
    as [Hn3 Hit3]; [done|].
  cbn [is_game_start_for] in Hn3, Hit3.
  rewrite bool_decide_true in Hn3, Hit3 by done.
  split_and!; [done|done|done|].
  eexists _, t3. split_and!; [exact Hp3|by apply Hit3|done].
Qed.

End Episodes.

(** * The concrete game: the statements above at work, and the inputs on
    which the controller departs from the wording of its description *)

Section Game.
#[local] Existing Instance grid.
#[local] Existing Instance walker.

(** The opening is served without failure and sends five acknowledgments. *)
Lemma run_opening :
  (run opening initial).1 = (Return tt, opened)
  ∧ (sent (run opening initial).2).*1
    = [AckMessage; AckMessage; AckMessage; AckMessage; AckMessage].
Proof. by vm_compute. Qed.

Lemma reachable_sighted : reachable sighted.
Proof.
  exists (opening ++ [StateMessage sighting]).
  exists (run (opening ++ [StateMessage sighting]) initial).2.
  by vm_compute.
Qed.

(** After the sighting, an acknowledgment that arrives as a request is
    dropped. *)
Lemma unrecognized_message_is_dropped_witness :
  (type AckMessage ∉ dispatch_table)
  ∧ __process__ AckMessage sighted = (Return tt, sighted, []).
Proof.
  assert (type AckMessage ∉ dispatch_table) as Hk
    by (apply (bool_decide_unpack _); vm_compute; exact I).
  split; [exact Hk|]. apply (unrecognized_message_is_dropped _ _ Hk).
Defined.

(** Agent 1 has decided once; INIT gives it a new instance that has not. *)
Lemma initialization_replaces_instance_witness :
  agents sighted !! 1 = Some pacman_sighted
  ∧ ∃ st' t,
      __process__ (RequestInitializationMessage 1) sighted
      = (Return tt, st', t)
      ∧ agents st' !! 1
        = Some (new_agent "PacmanAgent" 1 (allies_of (agent_teams sighted) 1)
                  (enemies_of (agent_teams sighted) 1))
      ∧ behavior_count <$> agents st' !! 1 = Some 0
      ∧ ∃ st'',
          __process__ (RequestBehaviorCountMessage 1) st'
          = (Return tt, st'', [Sent (BehaviorCountMessage 0) st']).
Proof.
  split; [by vm_compute|].
  apply (initialization_replaces_instance 1 sighted "PacmanAgent" "pacman").
  - by vm_compute.
  - by vm_compute.
Defined.

(** Agent 1 has decided once: the first request replies 1, the second 0. *)
Lemma behavior_count_is_drained_witness :
  agents sighted !! 1 = Some pacman_sighted
  ∧ ∃ st1 st2,
      __process__ (RequestBehaviorCountMessage 1) sighted
      = (Return tt, st1, [Sent (BehaviorCountMessage 1) sighted])
      ∧ behavior_count <$> agents st1 !! 1 = Some 0
      ∧ __process__ (RequestBehaviorCountMessage 1) st1
        = (Return tt, st2, [Sent (BehaviorCountMessage 0) st1]).
Proof.
  assert (agents sighted !! 1 = Some pacman_sighted) as Ha by (by vm_compute).
  split; [exact Ha|].
  apply (behavior_count_is_drained 1 sighted pacman_sighted Ha).
Defined.

(** Agent 1 has seen the ghost at (3, 4); its next game starts without. *)
Lemma game_start_discards_session_witness :
  reachable sighted
  ∧ agents sighted !! 1 = Some pacman_sighted
  ∧ (positions <$> game_states sighted !! 1) = Some {[2 := (3, 4)]}
  ∧ ∃ st' t team n g,
      agent_teams sighted !! 1 = Some team
      ∧ game_number sighted !! 1 = Some n
      ∧ __process__ (RequestGameStartMessage 1 10 10) sighted
        = (Return tt, st', t)
      ∧ game_states st' !! 1 = Some g
      ∧ g = GameState_init 10 10 [] 1 (allies_of (agent_teams sighted) 1)
              (enemies_of (agent_teams sighted) 1)
              (bool_decide (team = "pacman")) n
      ∧ positions g = ∅
      ∧ fragile g = ∅
      ∧ ∀ old, ∃ st'' t'',
          __process__ (RequestGameStartMessage 1 10 10)
            (set_game_states <[1 := old]> sighted)
          = (Return tt, st'', t'')
          ∧ game_states st'' !! 1 = Some g.
Proof.
  assert (agents sighted !! 1 = Some pacman_sighted) as Ha by (by vm_compute).
  split_and!; [exact reachable_sighted|exact Ha|by vm_compute|].
  apply (game_start_discards_session 1 10 10 sighted pacman_sighted
           reachable_sighted Ha).
Defined.

(** The second game start of agent 1: one acknowledgment, then the episode
    counter goes up. *)
Lemma one_reply_per_ready_message_witness :
  type (RequestGameStartMessage 1 10 10) ∈ dispatch_table
  ∧ ready opened (RequestGameStartMessage 1 10 10)
  ∧ ∃ t reply snapshot,
      __process__ (RequestGameStartMessage 1 10 10) opened
      = (Return tt, after opened (RequestGameStartMessage 1 10 10), t)
      ∧ sent t = [(reply, snapshot)]
      ∧ ∃ n,
          reply = AckMessage
          ∧ game_number snapshot !! 1 = Some n
          ∧ after opened (RequestGameStartMessage 1 10 10)
            = set_game_number <[1 := n + 1]> snapshot.
Proof.
  assert (type (RequestGameStartMessage 1 10 10) ∈ dispatch_table) as Hk
    by (apply (bool_decide_unpack _); vm_compute; exact I).
  assert (ready opened (RequestGameStartMessage 1 10 10)) as Hr
    by (apply (bool_decide_unpack _); vm_compute; exact I).
  split_and!; [exact Hk|exact Hr|].
  exact (proj1 (one_reply_per_ready_message
                  (RequestGameStartMessage 1 10 10) opened Hk) Hr).
Defined.

(** Agent 1 is registered and sends its state before any game start. *)
Lemma state_without_session_stops_the_loop_witness :
  game_states registered !! agent_id sighting = None
  ∧ __process__ (StateMessage sighting) registered
    = (Raise (KeyError 1), registered, [])
  ∧ serve [StateMessage sighting; RequestInitializationMessage 1] registered
    = (Raise (KeyError 1), registered, []).
Proof.
  assert (game_states registered !! agent_id sighting = None) as Hg
    by (by vm_compute).
  split; [exact Hg|].
  destruct (state_without_session_stops_the_loop sighting registered
              [RequestInitializationMessage 1] Hg) as (Hp & Hs & _).
  split; [exact Hp|exact Hs].
Defined.

(** The sighting, handled when both agents are in a game: the action that
    [walk_north] chooses is predicted for agent 1 and for the ghost. *)
Lemma prediction_covers_started_agents_witness :
  game_states both_started !! agent_id sighting = Some session_opened
  ∧ agents both_started !! agent_id sighting = Some pacman_opened
  ∧ is_Some (game_states both_started !! 2)
  ∧ ∃ st' t snapshot,
      __process__ (StateMessage sighting) both_started = (Return tt, st', t)
      ∧ sent t = [(ActionMessage 1 "North", snapshot)]
      ∧ NoDup (predicted t)
      ∧ (∀ owner id_ act,
           (owner, id_, act) ∈ predicted t
           ↔ owner = 1 ∧ act = "North"
             ∧ is_Some (game_states both_started !! id_))
      ∧ ((1, 1, "North") ∈ predicted t)
      ∧ ((1, 2, "North") ∈ predicted t).
Proof.
  assert (game_states both_started !! agent_id sighting = Some session_opened)
    as Hg by (by vm_compute).
  assert (agents both_started !! agent_id sighting = Some pacman_opened)
    as Ha by (by vm_compute).
  assert (is_Some (game_states both_started !! 2)) as Hghost
    by (apply (bool_decide_unpack _); vm_compute; exact I).
  split_and!; [exact Hg|exact Ha|exact Hghost|].
  destruct (prediction_covers_started_agents sighting both_started _ _ Hg Ha)
    as (st' & t & snapshot & Hp & Hs & Hnd & Hiff & Hself).
  exists st', t, snapshot.
  split_and!; [exact Hp|exact Hs|exact Hnd|exact Hiff|exact Hself|].
  apply (proj2 (Hiff 1 2 "North")). split_and!; [reflexivity..|exact Hghost].
Defined.

(** Two games of agent 1 after its initialization seed 0 and 1, the third
    game 2. *)
Lemma episode_counter_counts_from_initialization_witness :
  let st1 := (__process__ (RequestInitializationMessage 1) registered).1.2 in
  let st2 := (serve two_games st1).1.2 in
  __process__ (RequestInitializationMessage 1) registered
  = (Return tt, st1, (__process__ (RequestInitializationMessage 1)
                        registered).2)
  ∧ Forall (λ msg, is_init_for 1 msg = false) two_games
  ∧ serve two_games st1 = (Return tt, st2, (serve two_games st1).2)
  ∧ iterations_seeded 1 two_games st1 = [0; 1]
  ∧ game_number st2 !! 1 = Some 2
  ∧ ∃ st3 t3,
      __process__ (RequestGameStartMessage 1 10 10) st2
      = (Return tt, st3, t3)
      ∧ iteration <$> game_states st3 !! 1 = Some 2
      ∧ game_number st3 !! 1 = Some 3.
Proof.
  intros st1 st2.
  assert (__process__ (RequestInitializationMessage 1) registered
          = (Return tt, st1, (__process__ (RequestInitializationMessage 1)
                                registered).2)) as Hp by (by vm_compute).
  assert (Forall (λ msg, is_init_for 1 msg = false) two_games) as Hi
    by (repeat constructor).
  assert (serve two_games st1 = (Return tt, st2, (serve two_games st1).2))
    as Hs by (by vm_compute).
  destruct (episode_counter_counts_from_initialization 1 registered st1 _
              two_games st2 _ 10 10 Hp Hi Hs) as (_ & Hit & Hn & Hnext).
  split_and!; [exact Hp|exact Hi|exact Hs|exact Hit|exact Hn|exact Hnext].
Defined.

(** C1, as worded, fails: after the opening, agent 1 is initialized and
    started again, and its second game is seeded with iteration 0, not 1. *)
Lemma counter_restarts_at_initialization :
  ¬ counter_survives_initialization.
Proof.
  intros Hc.
  specialize (Hc 1 restart (serve restart running).1.2
                (serve restart running).2).
  assert (iterations_seeded 1 restart running = [0; 0]) as Hit
    by (by vm_compute).
  rewrite Hit in Hc. specialize (Hc ltac:(by vm_compute)).
  vm_compute in Hc. discriminate Hc.
Qed.

(** C2, as worded, fails: agent 1 observes the ghost, which has no game
    state of its own, and [predict_agent] is called for agent 1 only. *)
Lemma observed_ghost_is_not_predicted : ¬ predicts_every_observed.
Proof.
  intros Hc.
  destruct (Hc sighting opened
              (__process__ (StateMessage sighting) opened).1.2
              (__process__ (StateMessage sighting) opened).2 2)
    as [action Hin].
  - by vm_compute.
  - vm_compute. apply list_elem_of_In. by left.
  - vm_compute in Hin. apply list_elem_of_In in Hin.
    destruct Hin as [Hin|[]]. discriminate Hin.
Qed.

(** C3, as worded, fails twice: the reply to a game start leaves before the
    episode counter is incremented, and a policy request for an agent that
    has no instance gets no reply at all. *)
Lemma reply_precedes_counter_increment :
  ¬ one_reply_after_all_mutations opened (RequestGameStartMessage 1 10 10)
  ∧ ¬ one_reply_after_all_mutations opened (RequestPolicyMessage 7).
Proof.
  split; intros Hc.
  - destruct Hc as (o & st' & t & reply & Hp & Hs).
    { apply (bool_decide_unpack _). vm_compute. exact I. }
    assert (t = (__process__ (RequestGameStartMessage 1 10 10) opened).2)
      as -> by (by rewrite Hp).
    assert (st' = (__process__ (RequestGameStartMessage 1 10 10) opened).1.2)
      as -> by (by rewrite Hp).
    apply (f_equal (λ l, (λ x, game_number x.2 !! 1) <$> l)) in Hs.
    vm_compute in Hs. discriminate Hs.
  - destruct Hc as (o & st' & t & reply & Hp & Hs).
    { apply (bool_decide_unpack _). vm_compute. exact I. }
    assert (t = (__process__ (RequestPolicyMessage 7) opened).2)
      as -> by (by rewrite Hp).
    vm_compute in Hs. discriminate Hs.
Qed.

(** C5, as worded, fails: the state message of an agent without game state
    ends the loop, and the registration that follows is never handled. *)
Lemma failed_lookup_ends_the_run :
  ¬ lookup_failure_is_confined running sighting
      [RequestRegisterMessage 2 "ghost" "GhostAgent"].
Proof.
  intros Hc. destruct Hc as (e & t0 & Hp & Hs); [by vm_compute|].
  vm_compute in Hs. discriminate Hs.
Qed.

End Game.

(** * Further properties of the handlers *)

Section Queries.
Context `{Collaborators}.

(** The allies and the enemies of a registered agent split the other
    registered agents by team: allies share its team, enemies have another
    one, nobody is listed twice and the agent itself is in neither list. *)
Theorem allies_and_enemies_split_the_others id st team :
  agent_teams st !! id = Some team →
  ∃ allies enemies,
    __get_allies__ id st = (Return allies, st, [])
    ∧ __get_enemies__ id st = (Return enemies, st, [])
    ∧ (∀ j, j ∈ allies ↔ agent_teams st !! j = Some team ∧ j ≠ id)
    ∧ (∀ j, j ∈ enemies ↔ ∃ t, agent_teams st !! j = Some t ∧ t ≠ team)
    ∧ (∀ j, j ∈ allies ++ enemies ↔ is_Some (agent_teams st !! j) ∧ j ≠ id)
    ∧ NoDup (allies ++ enemies).
Proof.
  intros Ht. exists (allies_of (agent_teams st) id),
    (enemies_of (agent_teams st) id).
  assert (∀ j, j ∈ allies_of (agent_teams st) id
               ↔ agent_teams st !! j = Some team ∧ j ≠ id) as Hal.
  { intros j. unfold allies_of. rewrite list_elem_of_filter, elem_of_keys, Ht.
    split; [by intros [[? ?] _]|]. intros [Hj ?]. by rewrite Hj. }
  assert (∀ j, j ∈ enemies_of (agent_teams st) id
               ↔ ∃ t, agent_teams st !! j = Some t ∧ t ≠ team) as Hen.
  { intros j. unfold enemies_of.
    rewrite list_elem_of_filter, elem_of_keys, Ht. split.
    - intros [[Hne ?] [t Hj]]. exists t. split; [done|]. congruence.
    - intros (t & Hj & Hne). rewrite Hj. split_and!; [congruence| |done].
      intros ->. congruence. }
  split_and!; [by eapply get_allies_registered
              |by eapply get_enemies_registered|done|done|..].
  - intros j. rewrite elem_of_app, Hal, Hen. split.
    + intros [[Hj ?]|(t & Hj & Hne)]; [by rewrite Hj|].
      split; [by rewrite Hj|]. intros ->. congruence.
    + intros [[t Hj] ?]. destruct (decide (t = team)) as [->|?];
        [by left|right; by exists t].
  - apply NoDup_app. split_and!.
    + apply NoDup_filter, NoDup_keys.
    + intros j [Hj _]%Hal (t & Hj' & Hne)%Hen. congruence.
    + apply NoDup_filter, NoDup_keys.
Qed.

(** For an agent that is not registered both queries raise [KeyError] when
    somebody else is registered, and return the empty list when nobody is;
    the controller is not changed. *)
Theorem queries_for_an_unregistered_agent id st :
  agent_teams st !! id = None →
  (agent_teams st = ∅ →
   __get_allies__ id st = (Return [], st, [])
   ∧ __get_enemies__ id st = (Return [], st, []))
  ∧ (agent_teams st ≠ ∅ →
     __get_allies__ id st = (Raise (KeyError id), st, [])
     ∧ __get_enemies__ id st = (Raise (KeyError id), st, [])).
Proof.
  intros Ht.
  rewrite (get_allies_unregistered _ _ Ht), (get_enemies_unregistered _ _ Ht).
  split; intros He.
  - by rewrite bool_decide_true.
  - by rewrite bool_decide_false.
Qed.

(** INIT for an agent that is not registered raises [KeyError] and sends
    nothing.  When somebody else is registered the controller is unchanged;
    on an empty registry the handler has by then dropped the instance of the
    agent and set its episode counter to 0. *)
Theorem initialization_of_an_unregistered_agent id st :
  agent_teams st !! id = None →
  agent_classes st !! id = None →
  __process__ (RequestInitializationMessage id) st
  = (Raise (KeyError id),
     if bool_decide (agent_teams st = ∅)
     then set_game_number <[id := 0]> (set_agents (delete id) st)
     else st,
     []).
Proof.
  intros Ht Hc. cbn [__process__]. unfold __initialize_agent__.
  unfold mbind at 1, M_bind at 1.
  rewrite get_allies_unregistered by done.
  destruct (bool_decide (agent_teams st = ∅)) eqn:He; [|done].
  unfold mbind at 1, M_bind at 1.
  rewrite get_enemies_unregistered by done. rewrite He.
  unfold mbind, M_bind, gets, getitem, modify, mret, M_ret.
  unfold set_agents, set_game_number. cbn.
  destruct (agents st !! id) as [a|] eqn:Ha.
  - rewrite bool_decide_true by done. cbn. rewrite Ha. cbn. by rewrite Hc.
  - rewrite bool_decide_false by (by intros [? ?]). cbn. rewrite Hc.
    by rewrite (delete_id _ _ Ha).
Qed.

End Queries.

(** * Further properties of the life cycle *)

Section Lifecycle.
Context `{Collaborators}.

Lemma omap_calls_nil {A B} (f : event → option B)
    (c : A → gs_call) owner (l : list A) :
  (∀ o k, f (Called o k) = None) →
  omap f ((λ x, Called owner (c x)) <$> l) = [].
Proof. intros Hf. induction l; [done|]. cbn. by rewrite Hf. Qed.

(** What a handled message sends: the reply of [reply_of], if any. *)
Lemma process_reply msg st :
  ready st msg →
  ∃ t,
    __process__ msg st = (Return tt, after st msg, t)
    ∧ (sent t).*1 = option_list (reply_of st msg)
    ∧ actions_sent t
      = omap (λ r, match r with
                   | ActionMessage _ action => Some action
                   | _ => None
                   end) (option_list (reply_of st msg)).
Proof.
  destruct msg as [s|id|id w h|id team c|id|id|id p| | |];
    cbn [ready after __process__ reply_of];
    try (intros _; by eexists).
  - intros [[g Hg] [a Ha]]. rewrite Hg, Ha.
    destruct (decision s a g) as [[action a'] g'] eqn:Hd.
    eexists. split_and!.
    + erewrite bind_return by (by eapply send_agent_action_run). done.
    + cbn zeta. rewrite app_nil_r, sent_state_trace. done.
    + cbn zeta. rewrite app_nil_r. unfold actions_sent.
      rewrite !omap_app.
      rewrite (omap_calls_nil _ (λ x, ObserveAgent x.1 x.2)),
        (omap_calls_nil _ (λ x, ObserveFragileAgent x.1 x.2)),
        (omap_calls_nil _ (λ id_, PredictAgent id_ action)) by done.
      done.
  - intros [[c Hc] [team Ht]]. rewrite Hc.
    eexists. split; [by erewrite initialize_run|]. split; reflexivity.
  - intros [[team Ht] [n Hn]]. rewrite Ht, Hn.
    eexists. split.
    { erewrite bind_return by (by eapply start_game_run).
      cbn. unfold mbind, M_bind, getitem, modify. cbn. by rewrite Hn. }
    split; reflexivity.
  - intros [a Ha]. rewrite Ha.
    eexists. split; [by erewrite behavior_count_run|]. split; reflexivity.
  - intros [a Ha]. rewrite Ha.
    eexists. split; [by erewrite policy_request_run|]. split; reflexivity.
  - intros [a Ha]. rewrite Ha.
    eexists. split; [by erewrite set_policy_run|]. split; reflexivity.
Qed.

(** Between two messages of a run, an agent with a game state has an
    instance, the agents with an instance are those with an episode counter,
    an agent with an instance is registered, and classes and teams are
    registered together. *)
Theorem reachable_controller_is_consistent st id :
  reachable st →
  (is_Some (game_states st !! id) → is_Some (agents st !! id))
  ∧ (is_Some (agents st !! id) ↔ is_Some (game_number st !! id))
  ∧ (is_Some (agents st !! id) → is_Some (agent_classes st !! id))
  ∧ (is_Some (agent_classes st !! id) ↔ is_Some (agent_teams st !! id)).
Proof.
  intros (Hag & Hnum & Hreg & Hgs)%reachable_wf.
  split_and!; [apply Hgs|symmetry; apply Hnum|apply Hag|apply Hreg].
Qed.

(** Once an agent has a game state, no request about it fails: in a run,
    every message of a dispatched kind about that agent is handled to the
    end and gets one reply, of the kind that belongs to the request. *)
Theorem started_agent_is_served st id msg :
  reachable st →
  is_Some (game_states st !! id) →
  addressee msg = Some id →
  ∃ st' t reply,
    __process__ msg st = (Return tt, st', t)
    ∧ (sent t).*1 = [reply]
    ∧ reply_type (type msg) = Some (type reply).
Proof.
  intros (Hag & Hnum & Hreg & Hgs)%reachable_wf Hg Had.
  pose proof (Hgs _ Hg) as Ha. pose proof (Hag _ Ha) as Hc.
  pose proof (proj1 (Hreg _) Hc) as Ht. pose proof (proj2 (Hnum _) Ha) as Hn.
  assert (ready st msg) as Hr.
  { destruct msg; cbn in Had; try done; injection Had as <-; cbn; by auto. }
  destruct (process_reply _ _ Hr) as (t & Hp & Hs & _).
  assert (∃ reply, reply_of st msg = Some reply
                   ∧ reply_type (type msg) = Some (type reply))
    as (reply & Hrep & Hty).
  { destruct msg as [s| | | |j|j| | | |]; cbn in Had; try done;
      injection Had as <-; cbn [reply_of type reply_type];
      try (by eexists).
    - destruct Hg as [g ->], Ha as [a ->]. by eexists.
    - destruct Ha as [a ->]. by eexists.
    - destruct Ha as [a ->]. by eexists. }
  exists (after st msg), t, reply. by rewrite Hs, Hrep.
Qed.

(** In a run, GAME_START for an agent that was never initialized raises
    [KeyError]; nothing is sent and the controller is unchanged. *)
Theorem game_start_before_initialization id w h st :
  reachable st →
  game_number st !! id = None →
  __process__ (RequestGameStartMessage id w h) st
  = (Raise (KeyError id), st, []).
Proof.
  intros (Hag & Hnum & Hreg & Hgs)%reachable_wf Hn.
  assert (game_states st !! id = None) as Hg.
  { apply eq_None_not_Some. intros Hg%Hgs%Hnum.
    rewrite Hn in Hg. by destruct Hg. }
  cbn [__process__]. apply bind_raise. unfold __start_game_for_agent__.
  destruct (agent_teams st !! id) as [team|] eqn:Ht.
  - erewrite bind_return by (by eapply get_allies_registered).
    erewrite bind_return by (by eapply get_enemies_registered).
    unfold mbind, M_bind, gets, getitem, modify, mret, M_ret.
    cbn. rewrite Ht. cbn. rewrite Hg.
    rewrite bool_decide_false by (by intros [? ?]). cbn. by rewrite Hn.
  - unfold mbind at 1, M_bind at 1.
    rewrite get_allies_unregistered by done.
    destruct (bool_decide (agent_teams st = ∅)) eqn:He; [|done].
    unfold mbind at 1, M_bind at 1.
    rewrite get_enemies_unregistered by done. rewrite He.
    unfold mbind, M_bind, getitem. cbn. by rewrite Ht.
Qed.

Lemma same_elsewhere_refl id st : same_elsewhere id st st.
Proof. by intros j _. Qed.

(** The entries of the other agents after a handled message. *)
Lemma after_elsewhere msg st id :
  addressee msg = Some id → same_elsewhere id st (after st msg).
Proof.
  intros Had j Hj.
  destruct msg as [s|i|i w h|i team c|i|i|i p| | |]; cbn in Had; try done;
    injection Had as <-; cbn [after].
  - destruct (game_states st !! agent_id s) as [g|]; [|done].
    destruct (agents st !! agent_id s) as [a|]; [|done].
    destruct (decision s a g) as [[action a'] g'].
    cbn. by rewrite !lookup_insert_ne.
  - destruct (agent_classes st !! i); [|done].
    cbn. by rewrite !lookup_insert_ne.
  - destruct (agent_teams st !! i); [|done].
    destruct (game_number st !! i); [|done].
    cbn. by rewrite !lookup_insert_ne.
  - cbn. by rewrite !lookup_insert_ne.
  - destruct (agents st !! i); [|done]. cbn. by rewrite !lookup_insert_ne.
  - destruct (agents st !! i); [|done]. cbn. by rewrite !lookup_insert_ne.
Qed.

(** The entries of the other agents after a message that fails. *)
Lemma failure_elsewhere msg st id o st' t :
  addressee msg = Some id →
  ¬ ready st msg →
  __process__ msg st = (o, st', t) →
  same_elsewhere id st st'.
Proof.
  intros Had Hn.
  destruct msg as [s|i|i w h|i team c|i|i|i p| | |]; cbn in Had; try done;
    injection Had as <-; cbn [ready] in Hn; cbn [__process__];
    try (exfalso; by apply Hn).
  - destruct (game_states st !! agent_id s) as [g|] eqn:Hg.
    + destruct (agents st !! agent_id s) as [a|] eqn:Ha.
      { destruct Hn. by split. }
      erewrite bind_raise.
      2:{ unfold __send_agent_action__.
          erewrite bind_return by (by apply call_run). cbv beta.
          erewrite bind_return by (apply call_run, lookup_insert_eq).
          cbv beta. rewrite set_game_states_insert_insert.
          erewrite bind_raise;
            [|by apply choose_action_raise; [apply lookup_insert_eq|]].
          done. }
      intros [= _ <- _] j Hj. elsewhere_solve.
    + erewrite bind_raise.
      2:{ unfold __send_agent_action__. apply bind_raise.
          by apply call_raise. }
      intros [= _ <- _] j Hj. elsewhere_solve.
  - unfold __initialize_agent__.
    destruct (agent_teams st !! i) as [team|] eqn:Ht.
    + destruct (agent_classes st !! i) as [c|] eqn:Hc.
      { destruct Hn. by split. }
      erewrite bind_return by (by eapply get_allies_registered).
      erewrite bind_return by (by eapply get_enemies_registered).
      unfold mbind, M_bind, gets, getitem, modify, mret, M_ret.
      unfold set_agents, set_game_number. cbn.
      destruct (agents st !! i) as [a|] eqn:Ha.
      * rewrite bool_decide_true by done. cbn. rewrite Ha. cbn.
        rewrite Hc. intros [= _ <- _] j Hj. elsewhere_solve.
      * rewrite bool_decide_false by (by intros [? ?]). cbn.
        rewrite Hc. intros [= _ <- _] j Hj. elsewhere_solve.
    + unfold mbind at 1, M_bind at 1.
      rewrite get_allies_unregistered by done.
      destruct (bool_decide (agent_teams st = ∅)) eqn:He.
      2:{ intros [= _ <- _] j Hj. elsewhere_solve. }
      unfold mbind at 1, M_bind at 1.
      rewrite get_enemies_unregistered by done. rewrite He.
      unfold mbind, M_bind, gets, getitem, modify, mret, M_ret.
      unfold set_agents, set_game_number. cbn.
      destruct (agents st !! i) as [a|] eqn:Ha.
      * rewrite bool_decide_true by done. cbn. rewrite Ha. cbn.
        destruct (agent_classes st !! i); cbn; [rewrite Ht; cbn|];
          intros [= _ <- _] j Hj; elsewhere_solve.
      * rewrite bool_decide_false by (by intros [? ?]). cbn.
        destruct (agent_classes st !! i); cbn; [rewrite Ht; cbn|];
          intros [= _ <- _] j Hj; elsewhere_solve.
  - unfold mbind at 1, M_bind at 1. unfold __start_game_for_agent__.
    destruct (agent_teams st !! i) as [team|] eqn:Ht.
    + destruct (game_number st !! i) as [n|] eqn:Hnum.
      { destruct Hn. by split. }
      erewrite bind_return by (by eapply get_allies_registered).
      erewrite bind_return by (by eapply get_enemies_registered).
      unfold mbind, M_bind, gets, getitem, modify, mret, M_ret.
      unfold set_game_states. cbn. rewrite Ht. cbn.
      destruct (game_states st !! i) as [g|] eqn:Hg.
      * rewrite bool_decide_true by done. cbn. rewrite Hg. cbn.
        rewrite Hnum. intros [= _ <- _] j Hj. elsewhere_solve.
      * rewrite bool_decide_false by (by intros [? ?]). cbn.
        rewrite Hnum. intros [= _ <- _] j Hj. elsewhere_solve.
    + unfold mbind at 1, M_bind at 1.
      rewrite get_allies_unregistered by done.
      destruct (bool_decide (agent_teams st = ∅)) eqn:He.
      2:{ intros [= _ <- _] j Hj. elsewhere_solve. }
      unfold mbind at 1, M_bind at 1.
      rewrite get_enemies_unregistered by done. rewrite He.
      unfold mbind, M_bind, getitem. cbn. rewrite Ht.
      intros [= _ <- _] j Hj. elsewhere_solve.
  - destruct (agents st !! i) as [a|] eqn:Ha; [by destruct Hn|].
    unfold __request_behavior_count__, mbind, M_bind, getitem.
    rewrite Ha. intros [= _ <- _] j Hj. elsewhere_solve.
  - destruct (agents st !! i) as [a|] eqn:Ha; [by destruct Hn|].
    unfold __send_policy_request__, mbind, M_bind, getitem. rewrite Ha.
    intros [= _ <- _] j Hj. elsewhere_solve.
  - destruct (agents st !! i) as [a|] eqn:Ha; [by destruct Hn|].
    unfold __set_agent_policy__, mbind, M_bind, getitem. rewrite Ha.
    intros [= _ <- _] j Hj. elsewhere_solve.
Qed.

(** A request about one agent never touches another agent: whether it is
    handled to the end or fails on the way, the instance, the class, the
    team, the game state and the episode counter of every other agent are
    what they were. *)
Theorem request_touches_its_agent_only msg st id :
  addressee msg = Some id →
  same_elsewhere id st (__process__ msg st).1.2.
Proof.
  intros Had. destruct (decide (ready st msg)) as [Hr|Hr].
  - destruct (process_ready _ _ Hr) as [t ->]. by apply after_elsewhere.
  - destruct (__process__ msg st) as [[o st'] t] eqn:Hp.
    by eapply failure_elsewhere.
Qed.

End Lifecycle.

(** * Further properties of runs *)

Section Runs.
Context `{Collaborators}.

(** The keys of the five dictionaries after a handled message. *)
Lemma after_keeps msg st j :
  (is_Some (agents st !! j) → is_Some (agents (after st msg) !! j))
  ∧ (is_Some (agent_classes st !! j)
     → is_Some (agent_classes (after st msg) !! j))
  ∧ (is_Some (agent_teams st !! j)
     → is_Some (agent_teams (after st msg) !! j))
  ∧ (is_Some (game_states st !! j)
     → is_Some (game_states (after st msg) !! j))
  ∧ (is_Some (game_number st !! j)
     → is_Some (game_number (after st msg) !! j)).
Proof.
  destruct msg as [s|i|i w h|i team c|i|i|i p| | |]; cbn [after];
    try done.
  - destruct (game_states st !! agent_id s) as [g|]; [|done].
    destruct (agents st !! agent_id s) as [a|]; [|done].
    destruct (decision s a g) as [[action a'] g'].
    cbn. rewrite !lookup_insert_is_Some.
    destruct (decide (agent_id s = j)); split_and!; auto.
  - destruct (agent_classes st !! i); [|done].
    cbn. rewrite !lookup_insert_is_Some.
    destruct (decide (i = j)); split_and!; auto.
  - destruct (agent_teams st !! i); [|done].
    destruct (game_number st !! i); [|done].
    cbn. rewrite !lookup_insert_is_Some.
    destruct (decide (i = j)); split_and!; auto.
  - cbn. rewrite !lookup_insert_is_Some.
    destruct (decide (i = j)); split_and!; auto.
  - destruct (agents st !! i); [|done].
    cbn. rewrite !lookup_insert_is_Some.
    destruct (decide (i = j)); split_and!; auto.
  - destruct (agents st !! i); [|done].
    cbn. rewrite !lookup_insert_is_Some.
    destruct (decide (i = j)); split_and!; auto.
Qed.

(** Along a run that does not fail, no agent is ever forgotten: an agent
    that has an instance, a class, a team, a game state or an episode counter
    still has one at the end, although INIT and GAME_START delete the entry
    they replace. *)
Theorem dictionaries_never_shrink inbox st st' t j :
  serve inbox st = (Return tt, st', t) →
  (is_Some (agents st !! j) → is_Some (agents st' !! j))
  ∧ (is_Some (agent_classes st !! j) → is_Some (agent_classes st' !! j))
  ∧ (is_Some (agent_teams st !! j) → is_Some (agent_teams st' !! j))
  ∧ (is_Some (game_states st !! j) → is_Some (game_states st' !! j))
  ∧ (is_Some (game_number st !! j) → is_Some (game_number st' !! j)).
Proof.
  revert st t. induction inbox as [|msg inbox IH]; intros st t.
  - cbn. by intros [= <- _].
  - intros (t1 & t2 & _ & _ & Hs & _)%serve_cons_inv.
    destruct (IH _ _ Hs) as (I1 & I2 & I3 & I4 & I5).
    destruct (after_keeps msg st j) as (K1 & K2 & K3 & K4 & K5).
    split_and!; auto.
Qed.

(** The replies of a run that does not fail answer the requests of the
    dispatched kinds one for one and in order, each with the kind of reply
    that belongs to the request; the other messages get none. *)
Theorem replies_follow_requests inbox st st' t :
  serve inbox st = (Return tt, st', t) →
  type <$> (sent t).*1 = omap (λ msg, reply_type (type msg)) inbox.
Proof.
  revert st t. induction inbox as [|msg inbox IH]; intros st t.
  - cbn. by intros [= _ <-].
  - intros (t1 & t2 & Hp & Hr & Hs & ->)%serve_cons_inv.
    destruct (process_reply _ _ Hr) as (t1' & Hp' & Hrep & _).
    assert (t1' = t1) as -> by congruence.
    rewrite sent_app, !fmap_app, Hrep, (IH _ _ Hs).
    change (omap (λ msg, reply_type (type msg)) (msg :: inbox))
      with (match reply_type (type msg) with
            | Some k => k :: omap (λ msg, reply_type (type msg)) inbox
            | None => omap (λ msg, reply_type (type msg)) inbox
            end).
    assert (type <$> option_list (reply_of st msg)
            = option_list (reply_type (type msg))) as ->.
    { destruct msg as [s|i|i w h|i team c|i|i|i p| | |];
        cbn [ready reply_of type reply_type] in *; try done.
      - destruct Hr as [[g ->] [a ->]]. done.
      - destruct Hr as [a ->]. done.
      - destruct Hr as [a ->]. done. }
    by destruct (reply_type (type msg)).
Qed.

(** The first request whose lookup fails ends the run with [KeyError]:
    whatever follows it is not handled, and the replies sent are those of the
    messages before it. *)
Theorem failure_ends_the_run before msg rest st st1 t1 :
  serve before st = (Return tt, st1, t1) →
  ¬ ready st1 msg →
  ∃ key st2 t2,
    serve (before ++ msg :: rest) st = (Raise (KeyError key), st2, t1 ++ t2)
    ∧ sent (t1 ++ t2) = sent t1.
Proof.
  intros Hb Hn.
  destruct (process_not_ready _ _ Hn) as (key & st2 & t2 & Hp & Hs).
  exists key, st2, t2. split.
  - rewrite (serve_app _ _ _ _ _ Hb). cbn [serve].
    by rewrite (bind_raise _ _ _ _ _ _ Hp).
  - by rewrite sent_app, Hs, app_nil_r.
Qed.

(** Messages of kinds that are not dispatched are transparent: a run over an
    inbox and the run over its dispatched messages end in the same way, with
    the same controller and the same trace. *)
Theorem undispatched_messages_are_transparent inbox st :
  serve (filter (λ msg, type msg ∈ dispatch_table) inbox) st
  = serve inbox st.
Proof.
  revert st. induction inbox as [|msg inbox IH]; intros st; [done|].
  rewrite filter_cons. destruct (decide (type msg ∈ dispatch_table)) as [Hk|Hk].
  - cbn [serve]. unfold mbind, M_bind.
    destruct (__process__ msg st) as [[[[]|e] st1] t1]; [|done].
    by rewrite IH.
  - rewrite IH. cbn [serve]. unfold mbind, M_bind.
    assert (__process__ msg st = (Return tt, st, [])) as ->.
    { destruct msg; try done; exfalso; apply Hk;
        apply list_elem_of_In; cbn; tauto. }
    by destruct (serve inbox st) as [[? ?] ?].
Qed.

(** The last action of a controller follows the replies. *)
Lemma serve_last_action inbox st st' t :
  serve inbox st = (Return tt, st', t) →
  last_action st'
  = match last (actions_sent t) with
    | Some action => Some action
    | None => last_action st
    end.
Proof.
  revert st t. induction inbox as [|msg inbox IH]; intros st t.
  - cbn. by intros [= <- <-].
  - intros (t1 & t2 & Hp & Hr & Hs & ->)%serve_cons_inv.
    destruct (process_reply _ _ Hr) as (t1' & Hp' & _ & Hact).
    assert (t1' = t1) as -> by congruence.
    rewrite (IH _ _ Hs). unfold actions_sent at 2. rewrite omap_app.
    fold (actions_sent t1). fold (actions_sent t2). rewrite last_app.
    destruct (last (actions_sent t2)) as [action|]; [done|].
    rewrite Hact.
    destruct msg as [s|i|i w h|i team c|i|i|i p| | |];
      cbn [ready reply_of after] in *; try done.
    + destruct Hr as [[g Hg] [a Ha]]. rewrite Hg, Ha.
      by destruct (decision s a g) as [[action a'] g'].
    + destruct Hr as [[c ->] _]. done.
    + destruct Hr as [[team ->] [n ->]]. done.
    + destruct Hr as [a ->]. done.
    + destruct Hr as [a ->]. done.
    + destruct Hr as [a ->]. done.
Qed.

(** After a run that does not fail, [last_action] is the action of the last
    action reply that was sent, and ['Stop'] when no state message was
    handled. *)
Theorem last_action_is_the_last_action_sent inbox st t :
  run inbox initial = (Return tt, st, t) →
  last_action st = Some (default "Stop" (last (actions_sent t))).
Proof.
  rewrite run_serve.
  destruct (serve inbox running) as [[o st1] t1] eqn:Hs.
  intros [= -> -> <-]. rewrite (serve_last_action _ _ _ _ Hs).
  change (actions_sent (Logged LogNowRunning :: t1)) with (actions_sent t1).
  by destruct (last (actions_sent t1)).
Qed.

(** The calls of a handled state message, in order: the layout is stored,
    every position and every fragility flag of the message is observed, the
    decision routine is run on the game state so obtained, its action is
    predicted for every agent that has a game state, and the reply with that
    action is sent last. *)
Theorem state_handling_call_order s st g a :
  game_states st !! agent_id s = Some g →
  agents st !! agent_id s = Some a →
  let action :=
    (choose_action a (session_before_decision s g) (executed_action s)
       (reward s) (legal_actions s) (test_mode s)).1.1 in
  ∃ st' ids,
    (∀ j, j ∈ ids ↔ is_Some (game_states st !! j))
    ∧ (__process__ (StateMessage s) st).2
      = [Called (agent_id s) (SetWalls (wall_positions s));
         Called (agent_id s) (SetFoodPositions (food_positions s))]
        ++ ((λ x, Called (agent_id s) (ObserveAgent x.1 x.2))
              <$> map_to_list (agent_positions s))
        ++ ((λ x, Called (agent_id s) (ObserveFragileAgent x.1 x.2))
              <$> map_to_list (fragile_agents s))
        ++ ((λ id_, Called (agent_id s) (PredictAgent id_ action)) <$> ids)
        ++ [Sent (ActionMessage (agent_id s) action) st'].
Proof.
  intros Hg Ha. cbn zeta. fold (decision s a g).
  destruct (decision s a g) as [[action a'] g'] eqn:Hd.
  eexists _, (keys (<[agent_id s := g']> (game_states st))). split.
  - intros j. rewrite elem_of_keys, lookup_insert_is_Some.
    destruct (decide (agent_id s = j)) as [<-|?].
    + split; [by exists g|by left].
    + split; [by intros [?|[_ ?]]|by right].
  - cbn [__process__].
    erewrite bind_return by (by eapply send_agent_action_run).
    cbn. by rewrite app_nil_r.
Qed.

End Runs.

(** * How the handlers compose *)

Section Composition.
Context `{Collaborators}.

Lemma serve_ready_cons msg inbox st :
  ready st msg →
  ∃ t1,
    __process__ msg st = (Return tt, after st msg, t1)
    ∧ serve (msg :: inbox) st
      = (let '(o, st', t) := serve inbox (after st msg) in (o, st', t1 ++ t)).
Proof.
  intros Hr. destruct (process_ready _ _ Hr) as [t1 Hp]. exists t1.
  split; [done|]. cbn [serve]. by rewrite (bind_return _ _ _ _ _ _ Hp).
Qed.

(** Allies are computed when they are needed, not kept: an agent that is
    registered on the team of [id] after the INIT of [id] is missing from the
    allies handed to the instance of [id], and is among the allies handed to
    the game state that the next GAME_START of [id] builds. *)
Theorem allies_are_recomputed_at_game_start id j team c cid w h st :
  agent_teams st !! id = Some team →
  agent_classes st !! id = Some cid →
  agent_teams st !! j = None →
  ∃ st' t a g,
    serve [RequestInitializationMessage id;
           RequestRegisterMessage j team c;
           RequestGameStartMessage id w h] st
    = (Return tt, st', t)
    ∧ agents st' !! id = Some a
    ∧ (j ∉ a_ally_ids a)
    ∧ game_states st' !! id = Some g
    ∧ (j ∈ ally_ids g).
Proof.
  intros Ht Hc Hj.
  assert (j ≠ id) as Hne by (intros ->; congruence).
  pose (st1 := after st (RequestInitializationMessage id)).
  pose (st2 := after st1 (RequestRegisterMessage j team c)).
  pose (st3 := after st2 (RequestGameStartMessage id w h)).
  assert (st1 = set_agents
                  <[id := new_agent cid id (allies_of (agent_teams st) id)
                            (enemies_of (agent_teams st) id)]>
                  (set_game_number <[id := 0]> st)) as E1.
  { unfold st1. cbn [after]. by rewrite Hc. }
  assert (agent_teams st2 = <[j := team]> (agent_teams st)) as Hteams.
  { unfold st2. cbn [after]. by rewrite E1. }
  assert (game_number st2 !! id = Some 0) as Hnum.
  { unfold st2. cbn [after]. rewrite E1. apply lookup_insert_eq. }
  assert (agent_teams st2 !! id = Some team) as Ht2.
  { by rewrite Hteams, lookup_insert_ne. }
  assert (agents st2 !! id
          = Some (new_agent cid id (allies_of (agent_teams st) id)
                    (enemies_of (agent_teams st) id))) as Hag.
  { unfold st2. cbn [after]. rewrite E1. apply lookup_insert_eq. }
  assert (st3 = set_game_number <[id := 0 + 1]>
                  (set_game_states
                     <[id := GameState_init w h [] id
                               (allies_of (agent_teams st2) id)
                               (enemies_of (agent_teams st2) id)
                               (bool_decide (team = "pacman")) 0]> st2))
    as E3.
  { unfold st3. cbn [after]. by rewrite Ht2, Hnum. }
  assert (ready st (RequestInitializationMessage id)) as Hr1 by (by split).
  assert (ready st1 (RequestRegisterMessage j team c)) as Hr2 by done.
  assert (ready st2 (RequestGameStartMessage id w h)) as Hr3.
  { split; [by rewrite Ht2|by rewrite Hnum]. }
  destruct (serve_ready_cons _ [RequestRegisterMessage j team c;
                                RequestGameStartMessage id w h] st Hr1)
    as (t1 & _ & ->).
  fold st1.
  destruct (serve_ready_cons _ [RequestGameStartMessage id w h] st1 Hr2)
    as (t2 & _ & ->).
  fold st2.
  destruct (serve_ready_cons _ [] st2 Hr3) as (t3 & _ & ->).
  fold st3. cbn [serve]. unfold mret, M_ret.
  exists st3, (t1 ++ t2 ++ t3 ++ []), (new_agent cid id (allies_of (agent_teams st) id)
                    (enemies_of (agent_teams st) id)),
    (GameState_init w h [] id (allies_of (agent_teams st2) id)
       (enemies_of (agent_teams st2) id) (bool_decide (team = "pacman")) 0).
  split_and!.
  - done.
  - rewrite E3. exact Hag.
  - cbn. unfold allies_of. rewrite list_elem_of_filter, elem_of_keys, Hj.
    by intros [_ [? ?]].
  - rewrite E3. apply lookup_insert_eq.
  - cbn [ally_ids GameState_init]. rewrite Hteams. unfold allies_of.
    rewrite list_elem_of_filter, elem_of_keys.
    rewrite lookup_insert_eq, lookup_insert_ne, Ht by done. by eauto.
Qed.

(** Which handler writes which dictionary: classes and teams are written by
    REGISTER only, instances by INIT, STATE, REQUEST_BEHAVIOR_COUNT and
    POLICY, game states by GAME_START and STATE, episode counters by INIT
    and GAME_START, and the last action by STATE.  So an INIT in the middle
    of a game leaves the game state of the agent in place, and a GAME_START
    keeps its instance. *)
Theorem handlers_write_their_dictionaries msg st st' t :
  __process__ msg st = (Return tt, st', t) →
  (type msg ≠ REQUEST_REGISTER_MSG →
   agent_classes st' = agent_classes st ∧ agent_teams st' = agent_teams st)
  ∧ (type msg ∉ [REQUEST_INIT_MSG; STATE_MSG; REQUEST_BEHAVIOR_COUNT_MSG;
                 POLICY_MSG] →
     agents st' = agents st)
  ∧ (type msg ∉ [REQUEST_GAME_START_MSG; STATE_MSG] →
     game_states st' = game_states st)
  ∧ (type msg ∉ [REQUEST_INIT_MSG; REQUEST_GAME_START_MSG] →
     game_number st' = game_number st)
  ∧ (type msg ≠ STATE_MSG → last_action st' = last_action st).
Proof.
  intros [Hr ->]%process_return.
  destruct msg as [s|i|i w h|i team c|i|i|i p| | |];
    cbn [ready after type] in *.
  - destruct Hr as [[g ->] [a ->]].
    destruct (decision s a g) as [[action a'] g'].
    split_and!; try done; intros Hk; exfalso; apply Hk;
      apply list_elem_of_In; cbn; tauto.
  - destruct Hr as [[c ->] _].
    split_and!; try done; intros Hk; exfalso; apply Hk;
      apply list_elem_of_In; cbn; tauto.
  - destruct Hr as [[team ->] [n ->]].
    split_and!; try done; intros Hk; exfalso; apply Hk;
      apply list_elem_of_In; cbn; tauto.
  - split_and!; done.
  - destruct Hr as [a ->].
    split_and!; try done; intros Hk; exfalso; apply Hk;
      apply list_elem_of_In; cbn; tauto.
  - done.
  - destruct Hr as [a ->].
    split_and!; try done; intros Hk; exfalso; apply Hk;
      apply list_elem_of_In; cbn; tauto.
  - done.
  - done.
  - done.
Qed.

End Composition.

(** * The further properties on the concrete game *)

Section GameFurther.
#[local] Existing Instance grid.
#[local] Existing Instance walker.

Lemma reachable_registered : reachable registered.
Proof.
  exists [@RequestRegisterMessage grid 1 "pacman" "PacmanAgent";
          @RequestRegisterMessage grid 2 "ghost" "GhostAgent"].
  eexists. by vm_compute.
Qed.

(** Among three agents, agent 3 is the ally of agent 1 and agent 2 its
    enemy. *)
Lemma allies_and_enemies_split_the_others_witness :
  agent_teams crowd !! 1 = Some "pacman"
  ∧ __get_allies__ 1 crowd = (Return [3], crowd, [])
  ∧ __get_enemies__ 1 crowd = (Return [2], crowd, [])
  ∧ ∃ allies enemies,
      __get_allies__ 1 crowd = (Return allies, crowd, [])
      ∧ __get_enemies__ 1 crowd = (Return enemies, crowd, [])
      ∧ (∀ j, j ∈ allies ↔ agent_teams crowd !! j = Some "pacman" ∧ j ≠ 1)
      ∧ (∀ j, j ∈ enemies
              ↔ ∃ t, agent_teams crowd !! j = Some t ∧ t ≠ "pacman")
      ∧ (∀ j, j ∈ allies ++ enemies
              ↔ is_Some (agent_teams crowd !! j) ∧ j ≠ 1)
      ∧ NoDup (allies ++ enemies).
Proof.
  assert (agent_teams crowd !! 1 = Some "pacman") as Ht by (by vm_compute).
  split_and!; [exact Ht|by vm_compute|by vm_compute|].
  apply (allies_and_enemies_split_the_others 1 crowd "pacman" Ht).
Defined.

(** Agent 5 is unknown to a registry that holds agents 1 and 2. *)
Lemma queries_for_an_unregistered_agent_witness :
  agent_teams registered !! 5 = None
  ∧ agent_teams registered ≠ ∅
  ∧ __get_allies__ 5 registered = (Raise (KeyError 5), registered, [])
  ∧ __get_enemies__ 5 registered = (Raise (KeyError 5), registered, []).
Proof.
  assert (agent_teams registered !! 5 = None) as Ht by (by vm_compute).
  assert (agent_teams registered ≠ ∅) as Hne.
  { intros He. apply (f_equal (λ m, m !! 1)) in He. vm_compute in He.
    discriminate He. }
  split_and!; [exact Ht|exact Hne|..];
    apply (proj2 (queries_for_an_unregistered_agent 5 registered Ht) Hne).
Defined.

(** INIT as the first message of a run: the counter of agent 1 is set
    before the lookup of its class fails. *)
Lemma initialization_of_an_unregistered_agent_witness :
  agent_teams running !! 1 = None
  ∧ agent_classes running !! 1 = None
  ∧ __process__ (RequestInitializationMessage 1) running
    = (Raise (KeyError 1),
       if bool_decide (agent_teams running = ∅)
       then set_game_number <[1 := 0]> (set_agents (delete 1) running)
       else running,
       []).
Proof.
  assert (agent_teams running !! 1 = None) as Ht by (by vm_compute).
  assert (agent_classes running !! 1 = None) as Hc by (by vm_compute).
  split_and!; [exact Ht|exact Hc|].
  apply (initialization_of_an_unregistered_agent 1 running Ht Hc).
Defined.

Lemma reachable_controller_is_consistent_witness :
  reachable sighted
  ∧ (is_Some (game_states sighted !! 1) → is_Some (agents sighted !! 1))
  ∧ (is_Some (agents sighted !! 1) ↔ is_Some (game_number sighted !! 1))
  ∧ (is_Some (agents sighted !! 1) → is_Some (agent_classes sighted !! 1))
  ∧ (is_Some (agent_classes sighted !! 1)
     ↔ is_Some (agent_teams sighted !! 1)).
Proof.
  split; [exact reachable_sighted|].
  apply (reachable_controller_is_consistent sighted 1 reachable_sighted).
Defined.

(** Agent 1 is in a game: its policy request is answered. *)
Lemma started_agent_is_served_witness :
  reachable sighted
  ∧ is_Some (game_states sighted !! 1)
  ∧ addressee (RequestPolicyMessage 1) = Some 1
  ∧ ∃ st' t reply,
      __process__ (RequestPolicyMessage 1) sighted = (Return tt, st', t)
      ∧ (sent t).*1 = [reply]
      ∧ reply_type (type (RequestPolicyMessage 1)) = Some (type reply).
Proof.
  assert (is_Some (game_states sighted !! 1)) as Hg
    by (apply (bool_decide_unpack _); vm_compute; exact I).
  split_and!; [exact reachable_sighted|exact Hg|reflexivity|].
  apply (started_agent_is_served sighted 1 (RequestPolicyMessage 1)
           reachable_sighted Hg eq_refl).
Defined.

(** Agent 2 was never initialized: its game start fails. *)
Lemma game_start_before_initialization_witness :
  reachable registered
  ∧ game_number registered !! 2 = None
  ∧ __process__ (RequestGameStartMessage 2 10 10) registered
    = (Raise (KeyError 2), registered, []).
Proof.
  assert (game_number registered !! 2 = None) as Hn by (by vm_compute).
  split_and!; [exact reachable_registered|exact Hn|].
  apply (game_start_before_initialization 2 10 10 registered
           reachable_registered Hn).
Defined.

(** The turn of agent 1 leaves the ghost as it is. *)
Lemma request_touches_its_agent_only_witness :
  addressee (StateMessage sighting) = Some 1
  ∧ same_elsewhere 1 opened (__process__ (StateMessage sighting) opened).1.2.
Proof.
  split; [reflexivity|].
  apply (request_touches_its_agent_only (StateMessage sighting) opened 1
           eq_refl).
Defined.

(** Agent 3 joins the team of agent 1 between its INIT and its game start. *)
Lemma allies_are_recomputed_at_game_start_witness :
  agent_teams registered !! 1 = Some "pacman"
  ∧ agent_classes registered !! 1 = Some "PacmanAgent"
  ∧ agent_teams registered !! 3 = None
  ∧ ∃ st' t a g,
      serve [RequestInitializationMessage 1;
             RequestRegisterMessage 3 "pacman" "PacmanAgent";
             RequestGameStartMessage 1 10 10] registered
      = (Return tt, st', t)
      ∧ agents st' !! 1 = Some a
      ∧ (3 ∉ a_ally_ids a)
      ∧ game_states st' !! 1 = Some g
      ∧ (3 ∈ ally_ids g).
Proof.
  assert (agent_teams registered !! 1 = Some "pacman") as Ht
    by (by vm_compute).
  assert (agent_classes registered !! 1 = Some "PacmanAgent") as Hc
    by (by vm_compute).
  assert (agent_teams registered !! 3 = None) as Hj by (by vm_compute).
  split_and!; [exact Ht|exact Hc|exact Hj|].
  apply (allies_are_recomputed_at_game_start 1 3 "pacman" _ _ 10 10
           registered Ht Hc Hj).
Defined.

(** Agent 1 is initialized in the middle of its game: its game state, with
    the ghost at (3, 4), stays. *)
Lemma handlers_write_their_dictionaries_witness :
  __process__ (RequestInitializationMessage 1) sighted
  = (Return tt, (__process__ (RequestInitializationMessage 1) sighted).1.2,
     (__process__ (RequestInitializationMessage 1) sighted).2)
  ∧ game_states (__process__ (RequestInitializationMessage 1) sighted).1.2
    = game_states sighted
  ∧ (positions <$> game_states sighted !! 1) = Some {[2 := (3, 4)]}.
Proof.
  assert (__process__ (RequestInitializationMessage 1) sighted
          = (Return tt,
             (__process__ (RequestInitializationMessage 1) sighted).1.2,
             (__process__ (RequestInitializationMessage 1) sighted).2))
    as Hp by (by vm_compute).
  split_and!; [exact Hp| |by vm_compute].
  destruct (handlers_write_their_dictionaries _ _ _ _ Hp)
    as (_ & _ & Hgs & _).
  apply Hgs. apply (bool_decide_unpack _). vm_compute. exact I.
Defined.

(** The exchange after the opening: nobody is forgotten. *)
Lemma dictionaries_never_shrink_witness :
  serve exchange opened
  = (Return tt, (serve exchange opened).1.2, (serve exchange opened).2)
  ∧ is_Some (game_states opened !! 1)
  ∧ is_Some (game_states (serve exchange opened).1.2 !! 1).
Proof.
  assert (serve exchange opened
          = (Return tt, (serve exchange opened).1.2,
             (serve exchange opened).2)) as Hs by (by vm_compute).
  assert (is_Some (game_states opened !! 1)) as Hg
    by (apply (bool_decide_unpack _); vm_compute; exact I).
  split_and!; [exact Hs|exact Hg|].
  destruct (dictionaries_never_shrink exchange opened _ _ 1 Hs)
    as (_ & _ & _ & Hk & _).
  exact (Hk Hg).
Defined.

(** The exchange: an action, an acknowledgment, a policy and a behavior
    count; the acknowledgment that arrives as a request gets no reply. *)
Lemma replies_follow_requests_witness :
  serve exchange opened
  = (Return tt, (serve exchange opened).1.2, (serve exchange opened).2)
  ∧ type <$> (sent (serve exchange opened).2).*1
    = [ACTION_MSG; ACK_MSG; POLICY_MSG; BEHAVIOR_COUNT_MSG].
Proof.
  assert (serve exchange opened
          = (Return tt, (serve exchange opened).1.2,
             (serve exchange opened).2)) as Hs by (by vm_compute).
  split; [exact Hs|].
  exact (replies_follow_requests exchange opened _ _ Hs).
Defined.

(** After the opening, a policy request for the unknown agent 9 ends the
    run; its registration, which follows, is not handled. *)
Lemma failure_ends_the_run_witness :
  serve opening running
  = (Return tt, (serve opening running).1.2, (serve opening running).2)
  ∧ ¬ ready (serve opening running).1.2 (RequestPolicyMessage 9)
  ∧ ∃ key st2 t2,
      serve (opening ++ RequestPolicyMessage 9
                        :: [RequestRegisterMessage 9 "ghost" "GhostAgent"])
        running
      = (Raise (KeyError key), st2, (serve opening running).2 ++ t2)
      ∧ sent ((serve opening running).2 ++ t2)
        = sent (serve opening running).2.
Proof.
  assert (serve opening running
          = (Return tt, (serve opening running).1.2,
             (serve opening running).2)) as Hs by (by vm_compute).
  assert (¬ ready (serve opening running).1.2 (RequestPolicyMessage 9))
    as Hn by (apply (bool_decide_unpack _); vm_compute; exact I).
  split_and!; [exact Hs|exact Hn|].
  apply (failure_ends_the_run opening (RequestPolicyMessage 9) _ running
           _ _ Hs Hn).
Defined.

(** The opening and the exchange: the last action is the one action sent. *)
Lemma last_action_is_the_last_action_sent_witness :
  run (opening ++ exchange) initial
  = (Return tt, (run (opening ++ exchange) initial).1.2,
     (run (opening ++ exchange) initial).2)
  ∧ last_action (run (opening ++ exchange) initial).1.2 = Some "North".
Proof.
  assert (run (opening ++ exchange) initial
          = (Return tt, (run (opening ++ exchange) initial).1.2,
             (run (opening ++ exchange) initial).2)) as Hr
    by (by vm_compute).
  split; [exact Hr|].
  exact (last_action_is_the_last_action_sent (opening ++ exchange) _ _ Hr).
Defined.

(** The sighting, handled after the opening. *)
Lemma state_handling_call_order_witness :
  game_states opened !! agent_id sighting = Some session_opened
  ∧ agents opened !! agent_id sighting = Some pacman_opened
  ∧ ∃ st' ids,
      (∀ j, j ∈ ids ↔ is_Some (game_states opened !! j))
      ∧ (__process__ (StateMessage sighting) opened).2
        = [Called 1 (SetWalls [(0, 0)]); Called 1 (SetFoodPositions [(5, 5)])]
          ++ ((λ x, Called 1 (ObserveAgent x.1 x.2))
                <$> map_to_list (agent_positions sighting))
          ++ ((λ x, Called 1 (ObserveFragileAgent x.1 x.2))
                <$> map_to_list (fragile_agents sighting))
          ++ ((λ id_, Called 1 (PredictAgent id_ "North")) <$> ids)
          ++ [Sent (ActionMessage 1 "North") st'].
Proof.
  assert (game_states opened !! agent_id sighting = Some session_opened)
    as Hg by (by vm_compute).
  assert (agents opened !! agent_id sighting = Some pacman_opened)
    as Ha by (by vm_compute).
  split_and!; [exact Hg|exact Ha|].
  exact (state_handling_call_order sighting opened _ _ Hg Ha).
Defined.

End GameFurther.
